(** * ceph.automation: the reconciliation logic of [ceph_config] and
      [ceph_orch_apply]

    A shallow embedding of [plugins/modules/ceph_orch_apply.py] and
    [plugins/modules/ceph_config.py].

    - Python values that YAML documents load to are an inductive type
      [pyval]; a mapping is an association list in insertion order, as a
      Python [dict] iterates.  Floating point numbers are left out.
    - The objects a function may mutate live in a heap (a list indexed by
      location), so that a caller observes what the callee wrote.
    - [module.run_command] is an oracle of the environment; every call is
      appended to a trace, which is how "the command is never invoked"
      is stated.
    - [exit_json], [fail_json] and an uncaught exception all end the
      invocation; they are the three ways a computation halts. *)

From Stdlib Require Import String Ascii ZArith List Bool Lia DecimalString.
From stdpp Require Import base list strings.
Import ListNotations.
Open Scope string_scope.
Open Scope list_scope.
Set Warnings "-register-all".

(** ** Python values and the builtins the modules rely on *)

Module Py.

Inductive pyval : Type :=
  | VNone
  | VBool (b : bool)
  | VInt (n : Z)
  | VStr (s : string)
  | VList (l : list pyval)
  | VDict (d : list (string * pyval)).

Definition dict := list (string * pyval).

(** Exceptions the modelled code can raise. *)
Inductive exn : Type :=
  | KeyError (key : string)
  | TypeError
  | AttributeError
  | ValueError
  | RuntimeError (msg : string)
  | YAMLError
  | JSONDecodeError.

(** [d.get(k)]: the value bound to [k], if any. *)
Fixpoint dict_get (k : string) (d : dict) : option pyval :=
  match d with
  | [] => None
  | (k', v) :: rest => if String.eqb k k' then Some v else dict_get k rest
  end.

(** [d[k] = v]: rebinds [k] where it stands, or appends a new binding. *)
Fixpoint dict_set (k : string) (v : pyval) (d : dict) : dict :=
  match d with
  | [] => [(k, v)]
  | (k', v') :: rest =>
      if String.eqb k k' then (k', v) :: rest else (k', v') :: dict_set k v rest
  end.

(** [a == b].  [bool] is a subclass of [int], so [True == 1]; sequences
    compare element by element in order; mappings compare by size and
    by key, whatever the insertion order. *)
Fixpoint py_eq (a b : pyval) {struct a} : bool :=
  match a, b with
  | VNone, VNone => true
  | VBool x, VBool y => Bool.eqb x y
  | VBool x, VInt n => Z.eqb (if x then 1 else 0) n
  | VInt n, VBool y => Z.eqb n (if y then 1 else 0)
  | VInt m, VInt n => Z.eqb m n
  | VStr s, VStr t => String.eqb s t
  | VList l, VList m =>
      (fix seq_eq (l m : list pyval) {struct l} : bool :=
         match l, m with
         | [], [] => true
         | x :: l', y :: m' => py_eq x y && seq_eq l' m'
         | _, _ => false
         end) l m
  | VDict d, VDict e =>
      Nat.eqb (length d) (length e) &&
      (fix all_in (d : dict) {struct d} : bool :=
         match d with
         | [] => true
         | (k, v) :: d' =>
             match dict_get k e with
             | Some w => py_eq v w && all_in d'
             | None => false
             end
         end) d
  | _, _ => false
  end.

Definition py_ne (a b : pyval) : bool := negb (py_eq a b).

(** Truth value of an object, as [if x:] and [not x] test it. *)
Definition py_truthy (v : pyval) : bool :=
  match v with
  | VNone => false
  | VBool b => b
  | VInt n => negb (Z.eqb n 0)
  | VStr s => negb (String.eqb s EmptyString)
  | VList l => match l with [] => false | _ => true end
  | VDict d => match d with [] => false | _ => true end
  end.

(** [needle in hay] on strings. *)
Fixpoint str_contains (needle hay : string) : bool :=
  String.prefix needle hay ||
  match hay with
  | EmptyString => false
  | String _ rest => str_contains needle rest
  end.

(** [key in obj] for a string [key]. *)
Definition py_contains (key : string) (obj : pyval) : exn + bool :=
  match obj with
  | VDict d => inr (match dict_get key d with Some _ => true | None => false end)
  | VList l => inr (existsb (fun x => py_eq x (VStr key)) l)
  | VStr s => inr (str_contains key s)
  | VNone | VBool _ | VInt _ => inl TypeError
  end.

(** [obj[key]] for a string [key]. *)
Definition py_getitem (obj : pyval) (key : string) : exn + pyval :=
  match obj with
  | VDict d =>
      match dict_get key d with
      | Some v => inr v
      | None => inl (KeyError key)
      end
  | _ => inl TypeError
  end.

(** [obj[key] = v] for a string [key]: the new state of [obj]. *)
Definition py_setitem (obj : pyval) (key : string) (v : pyval) : exn + pyval :=
  match obj with
  | VDict d => inr (VDict (dict_set key v d))
  | _ => inl TypeError
  end.

(** [obj.items()], in iteration order. *)
Definition py_items (obj : pyval) : exn + list (string * pyval) :=
  match obj with
  | VDict d => inr d
  | _ => inl AttributeError
  end.

(** Text in the ASCII range: every byte is below 128. *)
Fixpoint is_ascii (s : string) : bool :=
  match s with
  | EmptyString => true
  | String c rest => Nat.ltb (nat_of_ascii c) 128 && is_ascii rest
  end.

(** [str.lower()] on text in the ASCII range, where it folds [A]-[Z] and
    nothing else.  Bytes from 128 on are kept as they are: the case
    folding [str.lower()] does beyond ASCII is not modelled, and what is
    stated about a comparison of lower-cased texts is stated for ASCII
    texts. *)
Definition lower_ascii (c : ascii) : ascii :=
  let n := nat_of_ascii c in
  if (Nat.leb 65 n && Nat.leb n 90)%bool then ascii_of_nat (n + 32) else c.

Fixpoint lower (s : string) : string :=
  match s with
  | EmptyString => EmptyString
  | String c rest => String (lower_ascii c) (lower rest)
  end.

(** [str.strip()]: white space is taken off both ends.  The white space
    of the ASCII range is tab to carriage return, the four separators
    28 to 31, and the blank; the white space [str.strip()] knows beyond
    ASCII is not modelled. *)
Definition is_space (c : ascii) : bool :=
  let n := nat_of_ascii c in
  (Nat.leb 9 n && Nat.leb n 13) || (Nat.leb 28 n && Nat.leb n 31)
  || Nat.eqb n 32.

Fixpoint lstrip (s : string) : string :=
  match s with
  | EmptyString => EmptyString
  | String c rest => if is_space c then lstrip rest else s
  end.

Fixpoint rstrip (s : string) : string :=
  match s with
  | EmptyString => EmptyString
  | String c rest =>
      match rstrip rest with
      | EmptyString => if is_space c then EmptyString else String c EmptyString
      | kept => String c kept
      end
  end.

Definition strip (s : string) : string := rstrip (lstrip s).

(** [str(n)] for an integer. *)
Definition str_of_Z (n : Z) : string := NilZero.string_of_int (Z.to_int n).

(** A list of keys without repetition. *)
Fixpoint distinct (keys : list string) : bool :=
  match keys with
  | [] => true
  | k :: rest => negb (existsb (String.eqb k) rest) && distinct rest
  end.

(** The values a Python program can build: no mapping, at any depth,
    binds a key twice. *)
Fixpoint keys_unique (v : pyval) : bool :=
  match v with
  | VList l =>
      (fix all (l : list pyval) : bool :=
         match l with
         | [] => true
         | x :: l' => keys_unique x && all l'
         end) l
  | VDict d =>
      distinct (map fst d) &&
      (fix all (d : dict) : bool :=
         match d with
         | [] => true
         | (_, x) :: d' => keys_unique x && all d'
         end) d
  | _ => true
  end.

End Py.
Import Py.

(** ** plugins/modules/ceph_orch_apply.py *)

Module OrchApply.

(** The parameters of the module's argument spec, and the check-mode flag. *)
Record AnsibleModule : Type := {
  param_spec : string;
  param_fsid : option string;
  param_docker : bool;
  param_image : option string;
  check_mode : bool
}.

(** What [module.run_command] hands back.  The framework returns the
    triple [(rc, stdout, stderr)]; [retrieve_current_spec] also tests the
    returned object for being a bare [str]. *)
Inductive cmd_out : Type :=
  | OutStr (s : string)
  | OutTuple (rc : Z) (out err : string).

Record call : Type := { argv : list pyval; stdin : option string }.

(** Heap locations. *)
Abbreviation loc := nat.

Record world : Type := { heap : list pyval; trace : list call }.

(** The keyword arguments [exit_module] passes on to [exit_json]. *)
Record exit_record : Type := {
  r_changed : bool;
  r_cmd : list pyval;
  r_rc : Z;
  r_stdout : string;
  r_stderr : string;
  r_start : Z
}.

(** The ways an invocation ends.  [Dangling] is a location outside the
    heap, which no Python program can hold. *)
Inductive halt : Type :=
  | ExitJson (r : exit_record)
  | FailJson (msg : string) (exception : option string)
  | Uncaught (e : exn)
  | Dangling.

Inductive result (A : Type) : Type :=
  | Ret (a : A)
  | Halt (h : halt).
Arguments Ret {A} a.
Arguments Halt {A} h.

Definition M (A : Type) : Type := world -> result A * world.

Definition ret {A} (a : A) : M A := fun w => (Ret a, w).

Definition bind {A B} (c : M A) (k : A -> M B) : M B :=
  fun w =>
    match c w with
    | (Ret a, w') => k a w'
    | (Halt h, w') => (Halt h, w')
    end.

Notation "x <- c1 ;; c2" := (bind c1 (fun x => c2))
  (at level 100, c1 at next level, right associativity).
Notation "c1 ;;; c2" := (bind c1 (fun _ => c2))
  (at level 100, right associativity).

Definition stop {A} (h : halt) : M A := fun w => (Halt h, w).

Definition raise {A} (e : exn) : M A := stop (Uncaught e).

Definition lift {A} (r : exn + A) : M A :=
  match r with
  | inl e => raise e
  | inr a => ret a
  end.

Definition load (l : loc) : M pyval :=
  fun w =>
    match heap w !! l with
    | Some v => (Ret v, w)
    | None => (Halt Dangling, w)
    end.

Definition store (l : loc) (v : pyval) : M unit :=
  fun w => (Ret tt, {| heap := <[l := v]> (heap w); trace := trace w |}).

Definition alloc (v : pyval) : M loc :=
  fun w => (Ret (length (heap w)), {| heap := heap w ++ [v]; trace := trace w |}).

(** [module.fail_json(msg=..., exception=...)] reports and exits. *)
Definition fail_json {A} (msg : string) (exception : option string) : M A :=
  stop (FailJson msg exception).

(** Modelled from the spec: [exit_module] of module_utils/ceph_common,
    which is not part of the sources at hand.  It emits the structured
    outcome (changed, command executed, exit code, stdout, stderr, start
    time) through [exit_json], which ends the invocation. *)
Definition exit_module {A} (module : AnsibleModule) (out : string) (rc : Z)
    (cmd : list pyval) (err : string) (startd : Z) (changed : bool) : M A :=
  stop (ExitJson {| r_changed := changed; r_cmd := cmd; r_rc := rc;
                    r_stdout := out; r_stderr := err; r_start := startd |}).

(** The loop of [change_required] over [expected.items()]. *)
Fixpoint compare_items (current : pyval) (items : list (string * pyval))
    : exn + bool :=
  match items with
  | [] => inr false
  | (key, value) :: rest =>
      match py_contains key current with
      | inl e => inl e
      | inr true =>
          match py_getitem current key with
          | inl e => inl e
          | inr cv =>
              if py_ne cv value then inr true else compare_items current rest
          end
      | inr false =>
          if negb (String.eqb key "location") then inr true
          else compare_items current rest
      end
  end.

(** [change_required(current, expected)]; both arguments are references
    to the caller's objects. *)
Definition change_required (current expected : loc) : M bool :=
  cur <- load current ;;
  if negb (py_truthy cur) then ret true
  else
    exp <- load expected ;;
    st <- lift (py_getitem exp "service_type") ;;
    (if py_eq st (VStr "host")
     then cur0 <- load current ;;
          new <- lift (py_setitem cur0 "service_type" (VStr "host")) ;;
          store current new
     else ret tt) ;;;
    exp' <- load expected ;;
    items <- lift (py_items exp') ;;
    cur' <- load current ;;
    lift (compare_items cur' items).

(** The state [change_required] leaves a non-empty mapping [cur] in, given
    the [service_type] of the expected spec (lines 161-163). *)
Definition after_host_rule (st : pyval) (cur : dict) : dict :=
  if py_eq st (VStr "host") then dict_set "service_type" (VStr "host") cur
  else cur.

(** The service types whose name carries the [service_id]. *)
Definition id_services : list string :=
  ["iscsi"; "nvmeof"; "mds"; "nfs"; "osd"; "rgw"; "container"; "ingress"].

Section Environment.

(** The cluster behind [module.run_command]: its answer to a call, given
    the calls made so far. *)
Variable run_command_oracle : list call -> call -> cmd_out.
(** [yaml.safe_load]. *)
Variable yaml_safe_load : string -> exn + pyval.
(** [build_base_cmd_orch] of module_utils/ceph_common: the command prefix,
    a function of the module parameters. *)
Variable build_base_cmd_orch : AnsibleModule -> list string.
(** [missing_required_lib] of ansible.module_utils.basic. *)
Variable missing_required_lib : string -> string.
(** [str()] of a list or a mapping. *)
Variable container_str : pyval -> string.
(** Whether [import yaml] succeeded, and the traceback if it did not. *)
Variable HAS_ANOTHER_LIBRARY : bool.
Variable ANOTHER_LIBRARY_IMPORT_ERROR : option string.
(** What [datetime.datetime.now()] reads at entry. *)
Variable now : Z.

Definition run_command (cmd : list pyval) (data : option string) : M cmd_out :=
  fun w =>
    let c := {| argv := cmd; stdin := data |} in
    (Ret (run_command_oracle (trace w) c),
     {| heap := heap w; trace := trace w ++ [c] |}).

(** [str(v)], as the [%s] conversion applies it. *)
Definition py_str (v : pyval) : string :=
  match v with
  | VNone => "None"
  | VBool true => "True"
  | VBool false => "False"
  | VInt n => str_of_Z n
  | VStr s => s
  | VList _ | VDict _ => container_str v
  end.

Definition parse_spec (spec : string) : M loc :=
  v <- lift (yaml_safe_load spec) ;;
  alloc v.

Definition retrieve_current_spec (module : AnsibleModule) (expected_spec : loc)
    : M loc :=
  exp <- load expected_spec ;;
  service <- lift (py_getitem exp "service_type") ;;
  srv_name <-
    (if existsb (fun s => py_eq service (VStr s)) id_services
     then sid <- lift (py_getitem exp "service_id") ;;
          ret (VStr (py_str service +:+ "." +:+ py_str sid))
     else ret service) ;;
  cmd <-
    (if py_ne service (VStr "host")
     then ret (map VStr (build_base_cmd_orch module)
               ++ [VStr "ls"; service; srv_name; VStr "--format=yaml"])
     else hostname <- lift (py_getitem exp "hostname") ;;
          ret (map VStr (build_base_cmd_orch module)
               ++ [VStr "host"; VStr "ls"; VStr "--host-pattern"; hostname;
                   VStr "--format=yaml"])) ;;
  out <- run_command cmd None ;;
  match out with
  | OutStr _ => alloc (VDict [])
  | OutTuple _ stdout _ =>
      v <- lift (yaml_safe_load stdout) ;;
      alloc v
  end.

(** Lines 136-141 of [retrieve_current_spec]: the command that was built
    is run, and its answer is read. *)
Definition after_listing (cmd : list pyval) : M nat :=
  bind (run_command cmd None)
    (fun out =>
       match out with
       | OutStr _ => alloc (VDict [])
       | OutTuple _ stdout _ =>
           bind (lift (yaml_safe_load stdout)) (fun v => alloc v)
       end).

(** The listing [retrieve_current_spec] issues for an nfs service. *)
Definition nfs_listing (module : AnsibleModule) (sid : pyval) : call :=
  {| argv := map VStr (build_base_cmd_orch module)
             ++ [VStr "ls"; VStr "nfs"; VStr ("nfs." +:+ py_str sid);
                 VStr "--format=yaml"];
     stdin := None |}.

(** The write [apply_spec] issues. *)
Definition apply_call (module : AnsibleModule) (data : string) : call :=
  {| argv := map VStr (build_base_cmd_orch module)
             ++ [VStr "apply"; VStr "-i"; VStr "-"];
     stdin := Some data |}.

(** [rc, out, err = module.run_command(...)]: a triple unpacks to its
    components, a string of three characters to its characters, any
    other string raises [ValueError].  [if rc:] holds for a non-zero
    integer and for any one-character string. *)
Definition apply_spec (module : AnsibleModule) (data : string)
    : M (Z * list pyval * string * string) :=
  let cmd := map VStr (build_base_cmd_orch module)
             ++ [VStr "apply"; VStr "-i"; VStr "-"] in
  r <- run_command cmd (Some data) ;;
  match r with
  | OutTuple rc out err =>
      if negb (Z.eqb rc 0) then raise (RuntimeError err)
      else ret (rc, cmd, out, err)
  | OutStr (String _ (String _ (String c EmptyString))) =>
      raise (RuntimeError (String c EmptyString))
  | OutStr _ => raise ValueError
  end.

Definition run_module (module : AnsibleModule) : M unit :=
  (if negb HAS_ANOTHER_LIBRARY
   then fail_json (missing_required_lib "another_library")
                  ANOTHER_LIBRARY_IMPORT_ERROR
   else ret tt) ;;;
  let startd := now in
  let spec := param_spec module in
  (if check_mode module
   then exit_module module EmptyString 0 [] EmptyString startd false
   else ret tt) ;;;
  expected <- parse_spec (param_spec module) ;;
  current_spec <- retrieve_current_spec module expected ;;
  required <- change_required current_spec expected ;;
  if (required : bool)
  then r <- apply_spec module spec ;;
       let '(rc, cmd, out, err) := r in
       exit_module module out rc cmd err startd true
  else exit_module module EmptyString 0 [] EmptyString startd false.

End Environment.

End OrchApply.

(** ** plugins/modules/ceph_config.py *)

Module Config.

Record AnsibleModule : Type := {
  param_who : string;
  param_action : string;
  param_option : string;
  param_value : option string;
  param_fsid : option string;
  param_image : option string;
  check_mode : bool
}.

(** One call of [module.run_command]: the argument vector. *)
Definition call := list pyval.

Record exit_record : Type := {
  r_changed : bool;
  r_cmd : list pyval;
  r_rc : Z;
  r_stdout : pyval;
  r_stderr : string;
  r_start : Z
}.

(** The ways an invocation ends: [exit_json] through [exit_module],
    [module.fail_json(msg=, cmd=, rc=)], [fatal], an uncaught exception. *)
Inductive halt : Type :=
  | ExitJson (r : exit_record)
  | FailJson (msg : string) (cmd : list pyval) (rc : Z)
  | Fatal (message : string)
  | Uncaught (e : exn).

Inductive result (A : Type) : Type :=
  | Ret (a : A)
  | Halt (h : halt).
Arguments Ret {A} a.
Arguments Halt {A} h.

(** The state is the trace of the commands run so far. *)
Definition M (A : Type) : Type := list call -> result A * list call.

Definition ret {A} (a : A) : M A := fun t => (Ret a, t).

Definition bind {A B} (c : M A) (k : A -> M B) : M B :=
  fun t =>
    match c t with
    | (Ret a, t') => k a t'
    | (Halt h, t') => (Halt h, t')
    end.

Notation "x <- c1 ;; c2" := (bind c1 (fun x => c2))
  (at level 100, c1 at next level, right associativity).

Definition stop {A} (h : halt) : M A := fun t => (Halt h, t).

Definition lift {A} (r : exn + A) : M A :=
  match r with
  | inl e => stop (Uncaught e)
  | inr a => ret a
  end.

Definition fail_json {A} (msg : string) (cmd : list pyval) (rc : Z) : M A :=
  stop (FailJson msg cmd rc).

(** Modelled from the spec: [fatal] of module_utils/ceph_common, which is
    not part of the sources at hand.  It aborts the whole invocation with
    the message it is given. *)
Definition fatal {A} (message : string) : M A := stop (Fatal message).

(** Modelled from the spec: [exit_module] of module_utils/ceph_common,
    which is not part of the sources at hand.  It emits the structured
    outcome (changed, command executed, exit code, stdout, stderr, start
    time) through [exit_json], which ends the invocation. *)
Definition exit_module {A} (module : AnsibleModule) (out : pyval) (rc : Z)
    (cmd : list pyval) (err : string) (startd : Z) (changed : bool) : M A :=
  stop (ExitJson {| r_changed := changed; r_cmd := cmd; r_rc := rc;
                    r_stdout := out; r_stderr := err; r_start := startd |}).

(** [str(value)] for the optional string parameter. *)
Definition str_opt (value : option string) : string :=
  match value with
  | Some s => s
  | None => "None"
  end.

(** The parameter as an element of an argument vector. *)
Definition arg_opt (value : option string) : pyval :=
  match value with
  | Some s => VStr s
  | None => VNone
  end.

Definition newline : string := String "010" EmptyString.

Fixpoint get_current_value (who option : string) (config_dump : list dict)
    : exn + pyval :=
  match config_dump with
  | [] => inr VNone
  | config :: rest =>
      match py_getitem (VDict config) "section" with
      | inl e => inl e
      | inr section =>
          if py_eq section (VStr who) then
            match py_getitem (VDict config) "name" with
            | inl e => inl e
            | inr name =>
                if py_eq name (VStr option)
                then py_getitem (VDict config) "value"
                else get_current_value who option rest
            end
          else get_current_value who option rest
      end
  end.

(** No record of the dump is for [(who, option)]: each one has a
    [section], and either that differs from [who] or its [name] differs
    from [option]. *)
Definition no_record_matches (who option : string) (config_dump : list dict)
    : Prop :=
  Forall (fun config =>
            exists section,
              dict_get "section" config = Some section /\
              (py_eq section (VStr who) = false \/
               exists name,
                 dict_get "name" config = Some name /\
                 py_eq name (VStr option) = false))
         config_dump.

Section Environment.

(** The cluster behind [module.run_command]: [(rc, stdout, stderr)] for a
    call, given the calls made so far. *)
Variable run_command_oracle : list call -> call -> Z * string * string.
(** [json.loads], at the type [get_current_value] declares for the dump. *)
Variable json_loads : string -> exn + list dict.
(** [build_base_cmd_shell] of module_utils/ceph_common: the command
    prefix, a function of the module parameters. *)
Variable build_base_cmd_shell : AnsibleModule -> list string.
(** [str()] of a list or a mapping. *)
Variable container_str : pyval -> string.
(** What [datetime.datetime.now()] reads at entry. *)
Variable now : Z.

Definition run_command (cmd : list pyval) : M (Z * string * string) :=
  fun t => (Ret (run_command_oracle t cmd), t ++ [cmd]).

Definition py_str (v : pyval) : string :=
  match v with
  | VNone => "None"
  | VBool true => "True"
  | VBool false => "False"
  | VInt n => str_of_Z n
  | VStr s => s
  | VList _ | VDict _ => container_str v
  end.

Definition set_cmd (module : AnsibleModule) (who option : string)
    (value : Datatypes.option string) : list pyval :=
  map VStr (build_base_cmd_shell module)
  ++ [VStr "ceph"; VStr "config"; VStr "set"; VStr who; VStr option;
      arg_opt value].

Definition rm_cmd (module : AnsibleModule) (who option : string) : list pyval :=
  map VStr (build_base_cmd_shell module)
  ++ [VStr "ceph"; VStr "config"; VStr "rm"; VStr who; VStr option].

Definition dump_cmd (module : AnsibleModule) : list pyval :=
  map VStr (build_base_cmd_shell module)
  ++ [VStr "ceph"; VStr "config"; VStr "dump"; VStr "--format"; VStr "json"].

Definition set_option (module : AnsibleModule) (who option : string)
    (value : Datatypes.option string) : M (Z * list pyval * string * string) :=
  let cmd := set_cmd module who option value in
  r <- run_command cmd ;;
  let '(rc, out, err) := r in
  ret (rc, cmd, strip out, err).

Definition remove_option (module : AnsibleModule) (who option : string)
    : M (Z * list pyval * string * string) :=
  let cmd := rm_cmd module who option in
  r <- run_command cmd ;;
  let '(rc, out, err) := r in
  ret (rc, cmd, strip out, err).

Definition get_config_dump (module : AnsibleModule)
    : M (Z * list pyval * string * string) :=
  let cmd := dump_cmd module in
  r <- run_command cmd ;;
  let '(rc, out, err) := r in
  if negb (Z.eqb rc 0)
  then fatal ("Can't get current configuration via `ceph config dump`.Error:"
              +:+ newline +:+ err)
  else ret (rc, cmd, strip out, err).

Definition main (module : AnsibleModule) : M unit :=
  let who := param_who module in
  let option := param_option module in
  let value := param_value module in
  let action := param_action module in
  let startd := now in
  r <- get_config_dump module ;;
  let '(rc, cmd, out, err) := r in
  config_dump <- lift (json_loads out) ;;
  current_value <- lift (get_current_value who option config_dump) ;;
  if String.eqb action "set" then
    if String.eqb (lower (str_opt value)) (lower (py_str current_value)) then
      exit_module module
        (VStr ("who=" +:+ who +:+ " option=" +:+ option +:+ " value="
               +:+ str_opt value +:+ " already set. Skipping."))
        rc cmd err startd false
    else if check_mode module then
      exit_module module
        (VStr ("who=" +:+ who +:+ " option=" +:+ option +:+ " would be set to "
               +:+ str_opt value))
        rc cmd err startd true
    else
      r' <- set_option module who option value ;;
      let '(rc', cmd', out', err') := r' in
      if negb (Z.eqb rc' 0) then fail_json err' cmd' rc'
      else exit_module module (VStr out') rc' cmd' err' startd true
  else if String.eqb action "remove" then
    match current_value with
    | VNone =>
        exit_module module
          (VStr ("who=" +:+ who +:+ " option=" +:+ option
                 +:+ " already absent. Skipping."))
          rc cmd err startd false
    | _ =>
        if check_mode module then
          exit_module module
            (VStr ("who=" +:+ who +:+ " option=" +:+ option
                   +:+ " would be removed"))
            rc cmd err startd true
        else
          r' <- remove_option module who option ;;
          let '(rc', cmd', out', err') := r' in
          if negb (Z.eqb rc' 0) then fail_json err' cmd' rc'
          else exit_module module (VStr out') rc' cmd' err' startd true
    end
  else
    match current_value with
    | VNone =>
        exit_module module (VStr EmptyString) rc cmd
          ("No value found for who=" +:+ who +:+ " option=" +:+ option)
          startd false
    | _ => exit_module module current_value rc cmd err startd false
    end.

End Environment.

End Config.

(** ** Concrete clusters, used to run the models *)

Module Demo.

(** A heap: a host listing at 0, a host spec at 1, the same listing with
    another extra field at 2, an empty mapping at 3. *)
Definition demo_world : OrchApply.world :=
  {| OrchApply.heap :=
       [ VDict [("hostname", VStr "ceph-1"); ("addr", VStr "10.0.0.1")];
         VDict [("service_type", VStr "host"); ("hostname", VStr "ceph-1");
                ("location", VDict [("rack", VStr "r1")])];
         VDict [("hostname", VStr "ceph-1"); ("status", VStr "Online")];
         VDict [] ];
     OrchApply.trace := [] |}.

Definition empty_world : OrchApply.world :=
  {| OrchApply.heap := []; OrchApply.trace := [] |}.

Definition nfs_spec_text : string := "{service_type: nfs, service_id: iac}".

Definition nfs_spec : dict :=
  [("service_type", VStr "nfs"); ("service_id", VStr "iac")].

(** A loader that knows the document above; any other text is taken for
    a plain scalar, which is what YAML makes of a line of words. *)
Definition yaml_safe_load (s : string) : exn + pyval :=
  if String.eqb s nfs_spec_text then inr (VDict nfs_spec) else inr (VStr s).

(** A cluster without the service: the listing answers with the text
    ['No services reported'] on stdout, and the write is refused. *)
Definition orch_oracle (t : list OrchApply.call) (c : OrchApply.call)
    : OrchApply.cmd_out :=
  match OrchApply.stdin c with
  | None => OrchApply.OutTuple 0 "No services reported" EmptyString
  | Some _ => OrchApply.OutTuple 22 EmptyString "Error EINVAL: invalid spec"
  end.

(** The same cluster behind a [run_command] that hands back bare text. *)
Definition orch_oracle_str (t : list OrchApply.call) (c : OrchApply.call)
    : OrchApply.cmd_out :=
  OrchApply.OutStr "No services reported".

Definition build_base_cmd_orch (module : OrchApply.AnsibleModule)
    : list string :=
  ["ceph"; "orch"].

Definition missing_required_lib (name : string) : string :=
  "Failed to import the required Python library (" +:+ name +:+ ")".

Definition container_str (v : pyval) : string := "[...]".

Definition orch_module (check : bool) : OrchApply.AnsibleModule :=
  {| OrchApply.param_spec := nfs_spec_text;
     OrchApply.param_fsid := None;
     OrchApply.param_docker := false;
     OrchApply.param_image := None;
     OrchApply.check_mode := check |}.

(** A config store with one override. *)
Definition config_dump : list dict :=
  [ [("section", VStr "global"); ("name", VStr "osd_pool_default_size");
     ("value", VStr "3")] ].

Definition json_loads (s : string) : exn + list dict := inr config_dump.

(** The dump succeeds when it is the first command of the invocation;
    every later command is refused. *)
Definition config_oracle (t : list Config.call) (c : Config.call)
    : Z * string * string :=
  match t with
  | [] => (0%Z, "[...]", EmptyString)
  | _ => (22%Z, EmptyString, "Error EINVAL: unrecognized config option")
  end.

(** A cluster that cannot be reached. *)
Definition config_oracle_down (t : list Config.call) (c : Config.call)
    : Z * string * string :=
  (1%Z, EmptyString, "Error initializing cluster client").

Definition build_base_cmd_shell (module : Config.AnsibleModule) : list string :=
  [].

Definition config_module (action who option : string)
    (value : Datatypes.option string) (check : bool) : Config.AnsibleModule :=
  {| Config.param_who := who;
     Config.param_action := action;
     Config.param_option := option;
     Config.param_value := value;
     Config.param_fsid := None;
     Config.param_image := None;
     Config.check_mode := check |}.

(** A cluster that runs the service as specified and accepts writes: the
    listing answers with the document the loader knows. *)
Definition orch_oracle_present (t : list OrchApply.call) (c : OrchApply.call)
    : OrchApply.cmd_out :=
  match OrchApply.stdin c with
  | None => OrchApply.OutTuple 0 nfs_spec_text EmptyString
  | Some _ => OrchApply.OutTuple 0 "Scheduled nfs.iac update..." EmptyString
  end.

(** A cluster without the service that accepts writes. *)
Definition orch_oracle_accepting (t : list OrchApply.call)
    (c : OrchApply.call) : OrchApply.cmd_out :=
  match OrchApply.stdin c with
  | None => OrchApply.OutTuple 0 "No services reported" EmptyString
  | Some _ => OrchApply.OutTuple 0 "Scheduled nfs.iac update..." EmptyString
  end.

(** A loader for which nothing is a document. *)
Definition yaml_rejecting (s : string) : exn + pyval := inl YAMLError.

Definition json_rejecting (s : string) : exn + list dict := inl JSONDecodeError.

(** A config store on which every command succeeds. *)
Definition config_oracle_ok (t : list Config.call) (c : Config.call)
    : Z * string * string :=
  match t with
  | [] => (0%Z, "[...]", EmptyString)
  | _ => (0%Z, EmptyString, EmptyString)
  end.

(** Heaps for the comparison: a service and its spec, field for field;
    the spec with its fields in another order; a host and its spec with
    a location; a service whose placement lists its keys in another
    order than the spec does; a spec without a service type. *)
Definition placement : dict := [("count", VInt 1); ("label", VStr "nfs")].

Definition placement_reordered : dict :=
  [("label", VStr "nfs"); ("count", VInt 1)].

Definition nfs_state : dict :=
  [("service_type", VStr "nfs"); ("service_id", VStr "iac");
   ("placement", VDict placement)].

Definition compare_world : OrchApply.world :=
  {| OrchApply.heap :=
       [ VDict nfs_state;
         VDict nfs_state;
         VDict [("service_id", VStr "iac"); ("service_type", VStr "nfs");
                ("placement", VDict placement)];
         VDict [("service_type", VStr "host"); ("hostname", VStr "ceph-1")];
         VDict [("service_type", VStr "host");
                ("location", VDict [("rack", VStr "r1")]);
                ("hostname", VStr "ceph-1")];
         VDict [("service_type", VStr "nfs"); ("service_id", VStr "iac");
                ("placement", VDict placement_reordered)];
         VDict [("service_id", VStr "iac")] ];
     OrchApply.trace := [] |}.

End Demo.

(** * Properties *)

Import OrchApply.

(** ** Mappings and equality *)

Example py_eq_dict_order :
  py_eq (VDict [("count", VInt 1); ("label", VStr "nfs")])
        (VDict [("label", VStr "nfs"); ("count", VInt 1)]) = true.
Proof. reflexivity. Qed.

Example py_eq_list_order :
  py_eq (VList [VInt 1; VInt 2]) (VList [VInt 2; VInt 1]) = false.
Proof. reflexivity. Qed.

Example py_eq_bool_int : py_eq (VInt 1) (VBool true) = true.
Proof. reflexivity. Qed.

Example is_ascii_bytes :
  is_ascii "osd_memory_target=5368709120" = true /\
  is_ascii (String (ascii_of_nat 195) (String (ascii_of_nat 137) EmptyString))
    = false.
Proof. split; reflexivity. Qed.

Example lower_None : lower "None" = "none".
Proof. reflexivity. Qed.

Example strip_json :
  strip (String "010" " [] " +:+ String "010" EmptyString) = "[]".
Proof. reflexivity. Qed.

Example str_of_Z_neg : str_of_Z (-51) = "-51".
Proof. reflexivity. Qed.

Lemma py_eq_VStr_r v s : py_eq v (VStr s) = true -> v = VStr s.
Proof.
  destruct v; simpl; try discriminate.
  intros H. apply String.eqb_eq in H. congruence.
Qed.

Lemma dict_set_same k v d : dict_get k d = Some v -> dict_set k v d = d.
Proof.
  induction d as [|[k' v'] rest IH]; simpl; [discriminate|].
  destruct (String.eqb k k'); intros H.
  - congruence.
  - rewrite IH; auto.
Qed.

Lemma dict_get_set_eq k v d : dict_get k (dict_set k v d) = Some v.
Proof.
  induction d as [|[k' v'] rest IH]; simpl.
  - rewrite String.eqb_refl. reflexivity.
  - destruct (String.eqb k k') eqn:E; simpl; rewrite E; auto.
Qed.

Lemma dict_get_set_ne k k' v d :
  k <> k' -> dict_get k' (dict_set k v d) = dict_get k' d.
Proof.
  intros Hne. induction d as [|[k0 v0] rest IH]; simpl.
  - destruct (String.eqb_spec k' k); congruence.
  - destruct (String.eqb_spec k k0); simpl.
    + subst. destruct (String.eqb_spec k' k0); congruence.
    + rewrite IH. reflexivity.
Qed.

Lemma compare_items_dict d items :
  exists b, compare_items (VDict d) items = inr b /\
    (b = true <->
     exists k v, In (k, v) items /\
       match dict_get k d with
       | Some cv => py_eq cv v = false
       | None => k <> "location"
       end).
Proof.
  induction items as [|[k v] rest IH]; simpl.
  - exists false. split; [reflexivity|]. split; [discriminate|].
    intros (k & v & [] & _).
  - destruct IH as (b & Hb & Hiff).
    destruct (dict_get k d) as [cv|] eqn:Hget.
    + unfold py_ne. destruct (py_eq cv v) eqn:Heq; simpl.
      * exists b. split; [exact Hb|]. rewrite Hiff. split.
        -- intros (k0 & v0 & Hin & Hd). exists k0, v0. split; [right; exact Hin|exact Hd].
        -- intros (k0 & v0 & [Hin|Hin] & Hd).
           ++ inversion Hin; subst. rewrite Hget in Hd. congruence.
           ++ exists k0, v0. split; assumption.
      * exists true. split; [reflexivity|]. split; [|reflexivity].
        intros _. exists k, v. split; [left; reflexivity|]. rewrite Hget. exact Heq.
    + destruct (String.eqb_spec k "location") as [->|Hne]; simpl.
      * exists b. split; [exact Hb|]. rewrite Hiff. split.
        -- intros (k0 & v0 & Hin & Hd). exists k0, v0. split; [right; exact Hin|exact Hd].
        -- intros (k0 & v0 & [Hin|Hin] & Hd).
           ++ inversion Hin; subst. rewrite Hget in Hd. congruence.
           ++ exists k0, v0. split; assumption.
      * exists true. split; [reflexivity|]. split; [|reflexivity].
        intros _. exists k, v. split; [left; reflexivity|]. rewrite Hget. exact Hne.
Qed.

Lemma py_truthy_dict d : d <> [] -> py_truthy (VDict d) = true.
Proof. destruct d; [congruence | reflexivity]. Qed.

Arguments dict_set : simpl never.
Arguments compare_items : simpl never.

Lemma change_required_run w c e cur exp st :
  heap w !! c = Some (VDict cur) -> cur <> [] ->
  heap w !! e = Some (VDict exp) ->
  dict_get "service_type" exp = Some st ->
  change_required c e w =
    (match compare_items (VDict (after_host_rule st cur)) exp with
     | inr b => Ret b
     | inl x => Halt (Uncaught x)
     end,
     if py_eq st (VStr "host")
     then {| heap := <[c := VDict (after_host_rule st cur)]> (heap w);
             trace := trace w |}
     else w).
Proof.
  intros Hc Hne He Hst.
  unfold change_required, bind, load, after_host_rule.
  rewrite Hc. rewrite (py_truthy_dict _ Hne). simpl.
  rewrite He. simpl. rewrite Hst. simpl.
  destruct (py_eq st (VStr "host")) eqn:Hhost.
  - rewrite Hc. simpl.
    destruct (decide (c = e)) as [->|Hce].
    + rewrite Hc in He. injection He as <-.
      apply py_eq_VStr_r in Hhost. subst st.
      rewrite (dict_set_same _ _ _ Hst).
      rewrite list_lookup_insert_eq by (eapply lookup_lt_Some; exact Hc).
      simpl.
      rewrite list_lookup_insert_eq by (eapply lookup_lt_Some; exact Hc).
      unfold lift. destruct (compare_items _ _); reflexivity.
    + rewrite list_lookup_insert_ne by exact Hce. rewrite He. simpl.
      rewrite list_lookup_insert_eq by (eapply lookup_lt_Some; exact Hc).
      unfold lift. destruct (compare_items _ _); reflexivity.
  - simpl. rewrite He. simpl. rewrite Hc.
    unfold lift. destruct (compare_items _ _); reflexivity.
Qed.

Lemma dict_get_In k v d : dict_get k d = Some v -> In (k, v) d.
Proof.
  induction d as [|[k0 v0] rest IH]; cbn [dict_get]; [discriminate|].
  destruct (String.eqb_spec k k0) as [->|Hne]; intros H.
  - left. congruence.
  - right. exact (IH H).
Qed.

Lemma compare_items_agree d1 d2 items :
  (forall k v, In (k, v) items -> dict_get k d1 = dict_get k d2) ->
  compare_items (VDict d1) items = compare_items (VDict d2) items.
Proof.
  induction items as [|[k v] rest IH]; intros Hag; [reflexivity|].
  unfold compare_items; fold compare_items. simpl.
  rewrite <- (Hag k v) by (left; reflexivity).
  rewrite IH by (intros k0 v0 Hin; apply (Hag k0 v0); right; exact Hin).
  reflexivity.
Qed.

Lemma after_host_rule_agree st cur1 cur2 k :
  (k = "service_type" \/ dict_get k cur1 = dict_get k cur2) ->
  dict_get "service_type" cur1 = dict_get "service_type" cur2 ->
  dict_get k (after_host_rule st cur1) = dict_get k (after_host_rule st cur2).
Proof.
  intros Hk Hst. unfold after_host_rule.
  destruct (py_eq st (VStr "host")).
  - destruct (String.eqb_spec "service_type" k) as [<-|Hne].
    + rewrite !dict_get_set_eq. reflexivity.
    + rewrite !dict_get_set_ne by exact Hne. destruct Hk; congruence.
  - destruct Hk as [->|Hk]; assumption.
Qed.

(** ** [change_required] *)

(** C1.  For a non-empty current mapping and an expected service spec (a
    mapping that has [service_type]), [change_required] returns [True]
    exactly when some field of [expected] is bound in [current] - taken
    after the host rule - to an unequal value, or is unbound there and is
    not named [location].  Two non-empty current mappings that agree on
    the fields of [expected] get the same verdict, so what else [current]
    holds does not matter.  For [None] or the empty mapping the verdict
    is [True] whatever [expected] is. *)
Theorem change_required_verdict (w : world) (c e : loc) :
  (forall cur exp st,
     heap w !! c = Some (VDict cur) -> cur <> [] ->
     heap w !! e = Some (VDict exp) ->
     dict_get "service_type" exp = Some st ->
     exists b, fst (change_required c e w) = Ret b /\
       (b = true <->
        exists k v, In (k, v) exp /\
          match dict_get k (after_host_rule st cur) with
          | Some cv => py_eq cv v = false
          | None => k <> "location"
          end)) /\
  (forall c2 cur cur2 exp st,
     heap w !! c = Some (VDict cur) -> cur <> [] ->
     heap w !! c2 = Some (VDict cur2) -> cur2 <> [] ->
     heap w !! e = Some (VDict exp) ->
     dict_get "service_type" exp = Some st ->
     (forall k v, In (k, v) exp -> dict_get k cur = dict_get k cur2) ->
     fst (change_required c e w) = fst (change_required c2 e w)) /\
  (forall cur,
     heap w !! c = Some cur -> cur = VNone \/ cur = VDict [] ->
     fst (change_required c e w) = Ret true).
Proof.
  split; [|split].
  - intros cur exp st Hc Hne He Hst.
    rewrite (change_required_run _ _ _ _ _ _ Hc Hne He Hst). simpl.
    destruct (compare_items_dict (after_host_rule st cur) exp) as (b & Hb & Hiff).
    exists b. rewrite Hb. split; [reflexivity | exact Hiff].
  - intros c2 cur cur2 exp st Hc Hne Hc2 Hne2 He Hst Hag.
    rewrite (change_required_run _ _ _ _ _ _ Hc Hne He Hst).
    rewrite (change_required_run _ _ _ _ _ _ Hc2 Hne2 He Hst). simpl.
    rewrite (compare_items_agree (after_host_rule st cur) (after_host_rule st cur2)).
    + reflexivity.
    + intros k v Hin. apply after_host_rule_agree.
      * right. exact (Hag k v Hin).
      * exact (Hag _ _ (dict_get_In _ _ _ Hst)).
  - intros cur Hc Hcur. unfold change_required, bind, load. rewrite Hc.
    destruct Hcur as [->| ->]; reflexivity.
Qed.

Lemma change_required_verdict_witness :
  fst (change_required 0 1 Demo.demo_world) = Ret false /\
  fst (change_required 0 1 Demo.demo_world) = fst (change_required 2 1 Demo.demo_world) /\
  fst (change_required 3 1 Demo.demo_world) = Ret true.
Proof.
  destruct (change_required_verdict Demo.demo_world 0 1) as (Hv & Hframe & _).
  destruct (change_required_verdict Demo.demo_world 3 1) as (_ & _ & Hempty).
  split; [|split].
  - destruct (Hv _ _ _ eq_refl ltac:(discriminate) eq_refl eq_refl) as (b & Hb & _).
    vm_compute in Hb. injection Hb as <-. reflexivity.
  - apply (Hframe 2 _ _ _ _ eq_refl ltac:(discriminate) eq_refl
             ltac:(discriminate) eq_refl eq_refl).
    intros k v [H|[H|[H|[]]]]; inversion H; reflexivity.
  - apply (Hempty _ eq_refl). right. reflexivity.
Defined.

(** C10.  Whatever [current] refers to, [change_required] runs no
    command; when [current] is a non-empty mapping and the [service_type]
    of [expected] is ['host'], the caller's object at [current] has
    [service_type] bound to ['host'] afterwards and nothing else in the
    heap moved; in every other case the world is left as it was. *)
Theorem change_required_writes_current (w : world) (c e : loc) (cur : pyval)
    (Hc : heap w !! c = Some cur) :
  let w' := snd (change_required c e w) in
  trace w' = trace w /\
  (forall d exp,
     cur = VDict d -> d <> [] ->
     heap w !! e = Some (VDict exp) ->
     dict_get "service_type" exp = Some (VStr "host") ->
     heap w' = <[c := VDict (dict_set "service_type" (VStr "host") d)]> (heap w) /\
     exists d', heap w' !! c = Some (VDict d') /\
                dict_get "service_type" d' = Some (VStr "host")) /\
  (~ (exists d exp,
        cur = VDict d /\ d <> [] /\
        heap w !! e = Some (VDict exp) /\
        dict_get "service_type" exp = Some (VStr "host")) ->
   w' = w).
Proof.
  cbv zeta. split; [|split].
  - unfold change_required, bind, load, store, lift, raise, stop, ret.
    rewrite Hc. destruct (py_truthy cur); [|reflexivity]. cbn [negb].
    destruct (heap w !! e) as [exp|]; [|reflexivity].
    destruct (py_getitem exp "service_type") as [x|st]; [reflexivity|].
    destruct (py_eq st (VStr "host")).
    + rewrite Hc. destruct (py_setitem cur "service_type" (VStr "host")) as [x|new];
        [reflexivity|]. cbn [heap trace].
      destruct (<[c:=new]> (heap w) !! e) as [exp'|]; [|reflexivity].
      destruct (py_items exp') as [x|items]; [reflexivity|]. cbn [heap trace].
      destruct (<[c:=new]> (heap w) !! c) as [cur'|]; [|reflexivity].
      destruct (compare_items cur' items); reflexivity.
    + destruct (heap w !! e) as [exp'|]; [|reflexivity].
      destruct (py_items exp') as [x|items]; [reflexivity|].
      rewrite Hc. destruct (compare_items cur items); reflexivity.
  - intros d exp -> Hne He Hst.
    rewrite (change_required_run _ _ _ _ _ _ Hc Hne He Hst).
    change (after_host_rule (VStr "host") d)
      with (dict_set "service_type" (VStr "host") d).
    change (py_eq (VStr "host") (VStr "host")) with true. cbn [snd heap].
    split; [reflexivity|].
    exists (dict_set "service_type" (VStr "host") d). split.
    + apply list_lookup_insert_eq. eapply lookup_lt_Some. exact Hc.
    + apply dict_get_set_eq.
  - intros Hno.
    unfold change_required, bind, load, store, lift, raise, stop, ret.
    rewrite Hc. destruct (py_truthy cur) eqn:Htruthy; [|reflexivity]. cbn [negb].
    destruct (heap w !! e) as [exp|] eqn:He; [|reflexivity].
    destruct (py_getitem exp "service_type") as [x|st] eqn:Hget; [reflexivity|].
    destruct (py_eq st (VStr "host")) eqn:Hhost.
    + rewrite Hc. destruct cur as [| | | | |d]; try reflexivity.
      exfalso. apply Hno. apply py_eq_VStr_r in Hhost. subst st.
      destruct exp as [| | | | |dexp]; try discriminate.
      exists d, dexp. repeat split.
      * intros ->. discriminate.
      * unfold py_getitem in Hget.
        destruct (dict_get "service_type" dexp); congruence.
    + rewrite He. destruct (py_items exp) as [x|items]; [reflexivity|].
      rewrite Hc. destruct (compare_items cur items); reflexivity.
Qed.

Lemma change_required_writes_current_witness :
  heap (snd (change_required 0 1 Demo.demo_world)) !! 0 =
    Some (VDict [("hostname", VStr "ceph-1"); ("addr", VStr "10.0.0.1");
                 ("service_type", VStr "host")]) /\
  snd (change_required 3 1 Demo.demo_world) = Demo.demo_world.
Proof.
  split.
  - destruct (change_required_writes_current Demo.demo_world 0 1 _ eq_refl)
      as (_ & Hhost & _).
    destruct (Hhost _ _ eq_refl ltac:(discriminate) eq_refl eq_refl) as (Hheap & _).
    rewrite Hheap. reflexivity.
  - destruct (change_required_writes_current Demo.demo_world 3 1 _ eq_refl)
      as (_ & _ & Hother).
    apply Hother. intros (d & exp & Hd & Hne & _).
    inversion Hd. subst d. apply Hne. reflexivity.
Defined.

(** ** The service module against its environment *)

Section OrchApplyFacts.

Variable run_command_oracle : list call -> call -> cmd_out.
Variable yaml_safe_load : string -> exn + pyval.
Variable build_base_cmd_orch : AnsibleModule -> list string.
Variable missing_required_lib : string -> string.
Variable container_str : pyval -> string.
Variable HAS_ANOTHER_LIBRARY : bool.
Variable ANOTHER_LIBRARY_IMPORT_ERROR : option string.
Variable now : Z.

Local Abbreviation retrieve :=
  (retrieve_current_spec run_command_oracle yaml_safe_load build_base_cmd_orch
     container_str).
Local Abbreviation apply :=
  (apply_spec run_command_oracle build_base_cmd_orch).
Local Abbreviation nfs_listing :=
  (nfs_listing build_base_cmd_orch container_str).
Local Abbreviation apply_call := (apply_call build_base_cmd_orch).
Local Abbreviation run :=
  (run_module run_command_oracle yaml_safe_load build_base_cmd_orch
     missing_required_lib container_str HAS_ANOTHER_LIBRARY
     ANOTHER_LIBRARY_IMPORT_ERROR now).

(** C2.  What [retrieve_current_spec] does with the answer to the listing
    of an nfs service.  Only an answer that is itself a bare string gives
    the empty mapping.  An answer [(rc, stdout, stderr)] - the shape
    [run_command] has at line 148 and that line 141 indexes - is handed
    to the YAML loader whatever [stdout] says, and the loaded value is
    the current state: with ['No services reported'] on [stdout] the
    current state is whatever that text loads to. *)
Theorem retrieve_current_spec_answer (w : world) (module : AnsibleModule)
    (e : loc) (exp : dict) (sid : pyval)
    (He : heap w !! e = Some (VDict exp))
    (Hst : dict_get "service_type" exp = Some (VStr "nfs"))
    (Hid : dict_get "service_id" exp = Some sid) :
  let w' v := {| heap := heap w ++ [v];
                 trace := trace w ++ [nfs_listing module sid] |} in
  (forall s,
     run_command_oracle (trace w) (nfs_listing module sid) = OutStr s ->
     retrieve module e w = (Ret (length (heap w)), w' (VDict []))) /\
  (forall rc out err v,
     run_command_oracle (trace w) (nfs_listing module sid) = OutTuple rc out err ->
     yaml_safe_load out = inr v ->
     retrieve module e w = (Ret (length (heap w)), w' v)).
Proof.
  cbv zeta.
  assert (Hpre : forall k : cmd_out -> M nat,
    bind (run_command run_command_oracle
            (map VStr (build_base_cmd_orch module)
             ++ [VStr "ls"; VStr "nfs";
                 VStr ("nfs." +:+ py_str container_str sid);
                 VStr "--format=yaml"]) None) k w
    = k (run_command_oracle (trace w) (nfs_listing module sid))
        {| heap := heap w; trace := trace w ++ [nfs_listing module sid] |})
    by reflexivity.
  assert (Hrun : retrieve module e w =
    (match run_command_oracle (trace w) (nfs_listing module sid) with
     | OutStr _ => alloc (VDict [])
     | OutTuple _ stdout _ =>
         bind (lift (yaml_safe_load stdout)) (fun v => alloc v)
     end) {| heap := heap w; trace := trace w ++ [nfs_listing module sid] |}).
  { unfold retrieve_current_spec.
    unfold bind at 1. unfold load. rewrite He.
    unfold bind at 1. unfold lift at 1. cbn [py_getitem]. rewrite Hst.
    cbn [ret].
    unfold bind at 1.
    change (existsb (fun s => py_eq (VStr "nfs") (VStr s)) id_services) with true.
    cbn iota. unfold bind at 1. unfold lift at 1. cbn [py_getitem].
    rewrite Hid. cbn [ret].
    unfold bind at 1.
    change (py_ne (VStr "nfs") (VStr "host")) with true. cbn iota. cbn [ret].
    change (py_str container_str (VStr "nfs")) with "nfs".
    apply Hpre. }
  split.
  - intros s Ho. rewrite Hrun, Ho. reflexivity.
  - intros rc out err v Ho Hy. rewrite Hrun, Ho.
    unfold bind, lift. rewrite Hy. reflexivity.
Qed.



(** C6.  In check mode the service module reports [changed=False] with
    [cmd=[]] at once: no command has run and no object was created when
    it exits, whatever the spec and the cluster are. *)
Theorem run_module_check_mode (w : world) (module : AnsibleModule)
    (Hlib : HAS_ANOTHER_LIBRARY = true)
    (Hcheck : check_mode module = true) :
  run module w =
    (Halt (ExitJson {| r_changed := false; r_cmd := []; r_rc := 0;
                       r_stdout := EmptyString; r_stderr := EmptyString;
                       r_start := now |}),
     w).
Proof.
  unfold run_module. rewrite Hlib, Hcheck. reflexivity.
Qed.

End OrchApplyFacts.

(** ** The config module against its environment *)

Lemma get_current_value_no_match who option dump :
  Config.no_record_matches who option dump ->
  Config.get_current_value who option dump = inr VNone.
Proof.
  induction 1 as [|config rest (section & Hsec & Hwhy) _ IH]; [reflexivity|].
  cbn [Config.get_current_value py_getitem]. rewrite Hsec.
  destruct Hwhy as [Hne | (name & Hname & Hne)].
  - rewrite Hne. exact IH.
  - destruct (py_eq section (VStr who)); [|exact IH].
    rewrite Hname, Hne. exact IH.
Qed.

Lemma app_one_neq_app_two {A} (t : list A) (a b c : A) :
  t ++ [a; b] <> t ++ [c].
Proof.
  intros H. apply (f_equal (@length A)) in H.
  rewrite !length_app in H. simpl in H. lia.
Qed.

Section ConfigFacts.

Variable run_command_oracle :
  list Config.call -> Config.call -> Z * string * string.
Variable json_loads : string -> exn + list dict.
Variable build_base_cmd_shell : Config.AnsibleModule -> list string.
Variable container_str : pyval -> string.
Variable now : Z.

(** The environment of the service module, for the comparison of the
    two modules' write paths. *)
Variable orch_run_command : list call -> call -> cmd_out.
Variable yaml_safe_load : string -> exn + pyval.
Variable build_base_cmd_orch : AnsibleModule -> list string.
Variable missing_required_lib : string -> string.
Variable HAS_ANOTHER_LIBRARY : bool.
Variable ANOTHER_LIBRARY_IMPORT_ERROR : Datatypes.option string.

Local Abbreviation main :=
  (Config.main run_command_oracle json_loads build_base_cmd_shell
     container_str now).
Local Abbreviation dump_cmd := (Config.dump_cmd build_base_cmd_shell).
Local Abbreviation set_cmd := (Config.set_cmd build_base_cmd_shell).
Local Abbreviation rm_cmd := (Config.rm_cmd build_base_cmd_shell).
Local Abbreviation py_str := (Config.py_str container_str).

(** Runs [main] up to the end of [get_config_dump]. *)
Ltac read_dump Hm Hdump :=
  unfold Config.main, Config.get_config_dump, Config.run_command in Hm;
  unfold Config.bind at 1 in Hm; unfold Config.bind at 1 in Hm;
  rewrite Hdump in Hm.

(** Runs [main] through the read, the decoding and the lookup. *)
Ltac fetch Hm Hdump Hjson Hcur :=
  read_dump Hm Hdump; cbn [Z.eqb negb Config.ret] in Hm;
  unfold Config.bind at 1 in Hm; rewrite Hjson in Hm;
  cbn [Config.lift Config.ret] in Hm;
  unfold Config.bind at 1 in Hm; rewrite Hcur in Hm;
  cbn [Config.lift Config.ret] in Hm.

(** C8.  When [ceph config dump] exits non-zero, the invocation ends in
    [fatal] with a message that carries the captured stderr; the dump is
    the only command that ran, and the outcome does not depend on what
    decoding or comparing would have given. *)
Theorem config_dump_failure_is_fatal (module : Config.AnsibleModule)
    (t : list Config.call) (rc : Z) (out err : string)
    (Hdump : run_command_oracle t (dump_cmd module) = (rc, out, err))
    (Hrc : rc <> 0%Z) :
  main module t =
    (Config.Halt
       (Config.Fatal
          ("Can't get current configuration via `ceph config dump`.Error:"
           +:+ Config.newline +:+ err)),
     t ++ [dump_cmd module]).
Proof.
  remember (main module t) as m eqn:Hm. read_dump Hm Hdump.
  destruct (Z.eqb_spec rc 0); [contradiction | exact Hm].
Qed.

(** C3, as the code has it.  With [action=set] and the current value
    found in the dump, both texts in the ASCII range: the module stops
    after the dump with [changed=False] exactly when the desired and the
    current value have the same lower-cased text.  When the texts differ outside check mode
    the set command runs; [changed=True] is reported when it exits zero,
    and a failure carrying its stderr, command and exit code when it does
    not. *)
Theorem config_set_decision (module : Config.AnsibleModule)
    (t : list Config.call) (out err : string) (dump : list dict) (cur : pyval)
    (Haction : Config.param_action module = "set")
    (Hdump : run_command_oracle t (dump_cmd module) = (0%Z, out, err))
    (Hjson : json_loads (strip out) = inr dump)
    (Hcur : Config.get_current_value (Config.param_who module)
              (Config.param_option module) dump = inr cur)
    (Hdesired : is_ascii (Config.str_opt (Config.param_value module)) = true)
    (Hcurrent : is_ascii (py_str cur) = true) :
  let who := Config.param_who module in
  let option := Config.param_option module in
  let value := Config.param_value module in
  let same := lower (Config.str_opt value) = lower (py_str cur) in
  ((snd (main module t) = t ++ [dump_cmd module] /\
    exists r, fst (main module t) = Config.Halt (Config.ExitJson r) /\
              Config.r_changed r = false)
   <-> same) /\
  (~ same -> Config.check_mode module = false ->
   forall rc' out' err',
     run_command_oracle (t ++ [dump_cmd module]) (set_cmd module who option value)
       = (rc', out', err') ->
     snd (main module t)
       = t ++ [dump_cmd module; set_cmd module who option value] /\
     (rc' = 0%Z ->
      fst (main module t) =
        Config.Halt (Config.ExitJson
          {| Config.r_changed := true;
             Config.r_cmd := set_cmd module who option value;
             Config.r_rc := 0;
             Config.r_stdout := VStr (strip out');
             Config.r_stderr := err';
             Config.r_start := now |})) /\
     (rc' <> 0%Z ->
      fst (main module t) =
        Config.Halt (Config.FailJson err' (set_cmd module who option value) rc'))).
Proof.
  cbv zeta. remember (main module t) as m eqn:Hm.
  fetch Hm Hdump Hjson Hcur. rewrite Haction in Hm.
  change (String.eqb "set" "set") with true in Hm. cbn iota in Hm.
  destruct (String.eqb_spec (lower (Config.str_opt (Config.param_value module)))
              (lower (py_str cur))) as [Heq|Hne].
  - subst m. split; [|intros Hne; contradiction].
    split; [intros _; exact Heq|]. intros _. split; [reflexivity|].
    eexists. split; reflexivity.
  - split.
    + split; [|intros Heq; contradiction].
      intros (Htrace & r & Hr & Hch). exfalso.
      destruct (Config.check_mode module).
      * subst m. cbn in Hr. injection Hr as <-. discriminate.
      * unfold Config.set_option, Config.bind, Config.run_command in Hm.
        destruct (run_command_oracle _ _) as [[rc' out'] err'] in Hm.
        cbn [Config.ret] in Hm.
        destruct (negb (rc' =? 0)%Z) in Hm; subst m; cbn in Htrace;
          rewrite <- app_assoc in Htrace;
          exact (app_one_neq_app_two _ _ _ _ Htrace).
    + intros _ Hcheck rc' out' err' Hset.
      rewrite Hcheck in Hm.
      unfold Config.set_option, Config.bind, Config.run_command in Hm.
      rewrite Hset in Hm. cbn [Config.ret] in Hm.
      destruct (Z.eqb_spec rc' 0) as [->|Hrc]; cbn [negb] in Hm; subst m.
      * split; [cbn; rewrite <- app_assoc; reflexivity|].
        split; [intros _; reflexivity | intros H; contradiction].
      * split; [cbn; rewrite <- app_assoc; reflexivity|].
        split; [intros H; contradiction | intros _; reflexivity].
Qed.

(** C5, as the code has it.  With [action=remove] and no record for
    [(who, option)] in the dump, [config rm] is not run - the dump is the
    only command - and the outcome reports [changed=False]; its [cmd] is
    the dump command, the last command that ran. *)
Theorem config_remove_absent (module : Config.AnsibleModule)
    (t : list Config.call) (out err : string) (dump : list dict)
    (Haction : Config.param_action module = "remove")
    (Hdump : run_command_oracle t (dump_cmd module) = (0%Z, out, err))
    (Hjson : json_loads (strip out) = inr dump)
    (Hnone : Config.no_record_matches (Config.param_who module)
               (Config.param_option module) dump) :
  main module t =
    (Config.Halt (Config.ExitJson
       {| Config.r_changed := false;
          Config.r_cmd := dump_cmd module;
          Config.r_rc := 0;
          Config.r_stdout :=
            VStr ("who=" +:+ Config.param_who module +:+ " option="
                  +:+ Config.param_option module
                  +:+ " already absent. Skipping.");
          Config.r_stderr := err;
          Config.r_start := now |}),
     t ++ [dump_cmd module]).
Proof.
  pose proof (get_current_value_no_match _ _ _ Hnone) as Hcur.
  remember (main module t) as m eqn:Hm.
  fetch Hm Hdump Hjson Hcur. rewrite Haction in Hm. exact Hm.
Qed.

(** C9.  With [action=set], no record for [(who, option)] in the dump and
    a desired value whose lower-cased text is ['none'], the module
    reports [changed=False] and the dump is the only command that ran:
    the absent value is compared as [str(None)]. *)
Theorem config_set_none_literal (module : Config.AnsibleModule)
    (t : list Config.call) (out err : string) (dump : list dict)
    (Haction : Config.param_action module = "set")
    (Hdump : run_command_oracle t (dump_cmd module) = (0%Z, out, err))
    (Hjson : json_loads (strip out) = inr dump)
    (Hnone : Config.no_record_matches (Config.param_who module)
               (Config.param_option module) dump)
    (Hvalue : lower (Config.str_opt (Config.param_value module)) = "none") :
  main module t =
    (Config.Halt (Config.ExitJson
       {| Config.r_changed := false;
          Config.r_cmd := dump_cmd module;
          Config.r_rc := 0;
          Config.r_stdout :=
            VStr ("who=" +:+ Config.param_who module +:+ " option="
                  +:+ Config.param_option module +:+ " value="
                  +:+ Config.str_opt (Config.param_value module)
                  +:+ " already set. Skipping.");
          Config.r_stderr := err;
          Config.r_start := now |}),
     t ++ [dump_cmd module]).
Proof.
  pose proof (get_current_value_no_match _ _ _ Hnone) as Hcur.
  remember (main module t) as m eqn:Hm.
  fetch Hm Hdump Hjson Hcur. rewrite Haction, Hvalue in Hm. exact Hm.
Qed.

(** C7.  In check mode the config module runs the dump and nothing else.
    When the dump is read and searched, the outcome's [changed] is the
    verdict of the comparison - for [set], whether the lower-cased texts,
    both in the ASCII range, differ; for [remove], whether a current
    value exists; for [get], never - and whenever it is [True] the output is the "would be set
    to" or the "would be removed" message. *)
Theorem config_check_mode (module : Config.AnsibleModule)
    (t : list Config.call)
    (Hcheck : Config.check_mode module = true) :
  let who := Config.param_who module in
  let option := Config.param_option module in
  let value := Config.param_value module in
  let action := Config.param_action module in
  snd (main module t) = t ++ [dump_cmd module] /\
  (forall out err dump cur,
     run_command_oracle t (dump_cmd module) = (0%Z, out, err) ->
     json_loads (strip out) = inr dump ->
     Config.get_current_value who option dump = inr cur ->
     (action = "set" ->
      is_ascii (Config.str_opt value) = true /\
      is_ascii (py_str cur) = true) ->
     let verdict :=
       if String.eqb action "set"
       then negb (String.eqb (lower (Config.str_opt value)) (lower (py_str cur)))
       else if String.eqb action "remove"
       then match cur with VNone => false | _ => true end
       else false in
     exists r,
       fst (main module t) = Config.Halt (Config.ExitJson r) /\
       Config.r_changed r = verdict /\
       Config.r_cmd r = dump_cmd module /\
       (verdict = true ->
        Config.r_stdout r =
          VStr (if String.eqb action "set"
                then "who=" +:+ who +:+ " option=" +:+ option
                     +:+ " would be set to " +:+ Config.str_opt value
                else "who=" +:+ who +:+ " option=" +:+ option
                     +:+ " would be removed"))).
Proof.
  cbv zeta. remember (main module t) as m eqn:Hm. split.
  - unfold Config.main, Config.get_config_dump, Config.run_command in Hm.
    unfold Config.bind at 1 in Hm. unfold Config.bind at 1 in Hm.
    destruct (run_command_oracle t (dump_cmd module)) as [[rc out] err].
    destruct (negb (rc =? 0)%Z); [subst m; reflexivity|].
    cbn [Config.ret] in Hm. unfold Config.bind at 1 in Hm.
    destruct (json_loads (strip out)) as [x|dump]; [subst m; reflexivity|].
    cbn [Config.lift Config.ret] in Hm. unfold Config.bind at 1 in Hm.
    destruct (Config.get_current_value _ _ dump) as [x|cur];
      [subst m; reflexivity|].
    cbn [Config.lift Config.ret] in Hm. rewrite Hcheck in Hm.
    destruct (String.eqb (Config.param_action module) "set").
    + destruct (String.eqb _ _) in Hm; subst m; reflexivity.
    + destruct (String.eqb (Config.param_action module) "remove");
        destruct cur; subst m; reflexivity.
  - intros out err dump cur Hdump Hjson Hcur _.
    fetch Hm Hdump Hjson Hcur. rewrite Hcheck in Hm.
    destruct (String.eqb (Config.param_action module) "set").
    + destruct (String.eqb _ _); subst m; eexists;
        (split; [reflexivity|]); cbn;
        (split; [reflexivity|]); (split; [reflexivity|]);
        intros H; try discriminate; reflexivity.
    + destruct (String.eqb (Config.param_action module) "remove");
        destruct cur; subst m; eexists;
        (split; [reflexivity|]); cbn;
        (split; [reflexivity|]); (split; [reflexivity|]);
        intros H; try discriminate; reflexivity.
Qed.


End ConfigFacts.

(** ** The models run on concrete clusters *)

Lemma retrieve_current_spec_answer_witness :
  (let '(r, w) :=
     retrieve_current_spec Demo.orch_oracle_str Demo.yaml_safe_load
       Demo.build_base_cmd_orch Demo.container_str (Demo.orch_module false) 0
       {| heap := [VDict Demo.nfs_spec]; trace := [] |} in
   r = Ret 1 /\ heap w !! 1 = Some (VDict [])) /\
  (let '(r, w) :=
     retrieve_current_spec Demo.orch_oracle Demo.yaml_safe_load
       Demo.build_base_cmd_orch Demo.container_str (Demo.orch_module false) 0
       {| heap := [VDict Demo.nfs_spec]; trace := [] |} in
   r = Ret 1 /\ heap w !! 1 = Some (VStr "No services reported")).
Proof.
  split.
  - destruct (retrieve_current_spec_answer Demo.orch_oracle_str
                Demo.yaml_safe_load Demo.build_base_cmd_orch Demo.container_str
                {| heap := [VDict Demo.nfs_spec]; trace := [] |}
                (Demo.orch_module false) 0 Demo.nfs_spec (VStr "iac")
                eq_refl eq_refl eq_refl) as (Hstr & _).
    rewrite (Hstr _ eq_refl). split; reflexivity.
  - destruct (retrieve_current_spec_answer Demo.orch_oracle
                Demo.yaml_safe_load Demo.build_base_cmd_orch Demo.container_str
                {| heap := [VDict Demo.nfs_spec]; trace := [] |}
                (Demo.orch_module false) 0 Demo.nfs_spec (VStr "iac")
                eq_refl eq_refl eq_refl) as (_ & Htuple).
    rewrite (Htuple _ _ _ _ eq_refl eq_refl). split; reflexivity.
Defined.

(** The text of the sentinel, taken for the current state, is a non-empty
    string without the field names in it: the comparison asks for a
    change. *)
Example change_required_on_sentinel_text :
  fst (change_required 1 0
         {| heap := [VDict Demo.nfs_spec; VStr "No services reported"];
            trace := [] |}) = Ret true.
Proof. reflexivity. Qed.

Lemma run_module_check_mode_witness :
  run_module Demo.orch_oracle Demo.yaml_safe_load Demo.build_base_cmd_orch
    Demo.missing_required_lib Demo.container_str true None 0
    (Demo.orch_module true) Demo.empty_world =
    (Halt (ExitJson {| r_changed := false; r_cmd := []; r_rc := 0;
                       r_stdout := EmptyString; r_stderr := EmptyString;
                       r_start := 0 |}),
     Demo.empty_world).
Proof.
  apply (run_module_check_mode Demo.orch_oracle Demo.yaml_safe_load
           Demo.build_base_cmd_orch Demo.missing_required_lib
           Demo.container_str true None 0 Demo.empty_world
           (Demo.orch_module true)); reflexivity.
Defined.

Lemma config_dump_failure_is_fatal_witness :
  fst (Config.main Demo.config_oracle_down Demo.json_loads
         Demo.build_base_cmd_shell Demo.container_str 0
         (Demo.config_module "set" "osd.0" "osd_memory_target"
            (Some "5368709120") false) []) =
    Config.Halt
      (Config.Fatal
         ("Can't get current configuration via `ceph config dump`.Error:"
          +:+ Config.newline +:+ "Error initializing cluster client")).
Proof.
  rewrite (config_dump_failure_is_fatal Demo.config_oracle_down Demo.json_loads
             Demo.build_base_cmd_shell Demo.container_str 0 _ [] 1 EmptyString
             "Error initializing cluster client" eq_refl ltac:(discriminate)).
  reflexivity.
Defined.

Lemma config_set_decision_witness :
  let module := Demo.config_module "set" "global" "osd_pool_default_size"
                  (Some "4") false in
  snd (Config.main Demo.config_oracle Demo.json_loads Demo.build_base_cmd_shell
         Demo.container_str 0 module []) =
    [Config.dump_cmd Demo.build_base_cmd_shell module;
     Config.set_cmd Demo.build_base_cmd_shell module "global"
       "osd_pool_default_size" (Some "4")] /\
  fst (Config.main Demo.config_oracle Demo.json_loads Demo.build_base_cmd_shell
         Demo.container_str 0 module []) =
    Config.Halt
      (Config.FailJson "Error EINVAL: unrecognized config option"
         (Config.set_cmd Demo.build_base_cmd_shell module "global"
            "osd_pool_default_size" (Some "4")) 22).
Proof.
  intros module.
  destruct (config_set_decision Demo.config_oracle Demo.json_loads
              Demo.build_base_cmd_shell Demo.container_str 0 module []
              "[...]" EmptyString Demo.config_dump (VStr "3")
              eq_refl eq_refl eq_refl eq_refl eq_refl eq_refl)
    as (_ & Hdiffer).
  destruct (Hdiffer ltac:(discriminate) eq_refl _ _ _ eq_refl)
    as (Htrace & _ & Hfail).
  split; [exact Htrace | exact (Hfail ltac:(discriminate))].
Defined.

(** C3 as the spec words it fails where the set command is refused: the
    texts, in the ASCII range, differ, the module is not in check mode,
    and no [changed=True] is reported. *)
Lemma config_set_changed_refuted :
  ~ (forall (run_command_oracle :
               list Config.call -> Config.call -> Z * string * string)
            (json_loads : string -> exn + list dict)
            (build_base_cmd_shell : Config.AnsibleModule -> list string)
            (container_str : pyval -> string) (now : Z)
            (module : Config.AnsibleModule) (t : list Config.call)
            (out err : string) (dump : list dict) (cur : pyval),
       Config.param_action module = "set" ->
       run_command_oracle t (Config.dump_cmd build_base_cmd_shell module)
         = (0%Z, out, err) ->
       json_loads (strip out) = inr dump ->
       Config.get_current_value (Config.param_who module)
         (Config.param_option module) dump = inr cur ->
       is_ascii (Config.str_opt (Config.param_value module)) = true ->
       is_ascii (Config.py_str container_str cur) = true ->
       lower (Config.str_opt (Config.param_value module))
         <> lower (Config.py_str container_str cur) ->
       Config.check_mode module = false ->
       exists r,
         fst (Config.main run_command_oracle json_loads build_base_cmd_shell
                container_str now module t)
           = Config.Halt (Config.ExitJson r) /\
         Config.r_changed r = true).
Proof.
  intros H.
  destruct (H Demo.config_oracle Demo.json_loads Demo.build_base_cmd_shell
              Demo.container_str 0%Z
              (Demo.config_module "set" "global" "osd_pool_default_size"
                 (Some "4") false)
              [] "[...]" EmptyString Demo.config_dump (VStr "3")
              eq_refl eq_refl eq_refl eq_refl eq_refl eq_refl
              ltac:(discriminate) eq_refl)
    as (r & Hr & _).
  vm_compute in Hr. discriminate.
Qed.

Lemma demo_no_record_for_osd :
  Config.no_record_matches "osd" "osd_memory_target" Demo.config_dump.
Proof.
  repeat constructor. exists (VStr "global"). split; [reflexivity|].
  left. reflexivity.
Defined.

Lemma config_remove_absent_witness :
  let module := Demo.config_module "remove" "osd" "osd_memory_target" None
                  false in
  Config.main Demo.config_oracle Demo.json_loads Demo.build_base_cmd_shell
    Demo.container_str 0 module [] =
    (Config.Halt (Config.ExitJson
       {| Config.r_changed := false;
          Config.r_cmd := [VStr "ceph"; VStr "config"; VStr "dump";
                           VStr "--format"; VStr "json"];
          Config.r_rc := 0;
          Config.r_stdout :=
            VStr "who=osd option=osd_memory_target already absent. Skipping.";
          Config.r_stderr := EmptyString;
          Config.r_start := 0 |}),
     [[VStr "ceph"; VStr "config"; VStr "dump"; VStr "--format"; VStr "json"]]).
Proof.
  intros module.
  exact (config_remove_absent Demo.config_oracle Demo.json_loads
           Demo.build_base_cmd_shell Demo.container_str 0 module []
           "[...]" EmptyString Demo.config_dump
           eq_refl eq_refl eq_refl demo_no_record_for_osd).
Defined.

(** C5 as the spec words it fails on the reported command: removing an
    absent key reports the dump command, not the empty command. *)
Lemma config_remove_absent_cmd_refuted :
  ~ (forall (run_command_oracle :
               list Config.call -> Config.call -> Z * string * string)
            (json_loads : string -> exn + list dict)
            (build_base_cmd_shell : Config.AnsibleModule -> list string)
            (container_str : pyval -> string) (now : Z)
            (module : Config.AnsibleModule) (t : list Config.call)
            (out err : string) (dump : list dict),
       Config.param_action module = "remove" ->
       run_command_oracle t (Config.dump_cmd build_base_cmd_shell module)
         = (0%Z, out, err) ->
       json_loads (strip out) = inr dump ->
       Config.no_record_matches (Config.param_who module)
         (Config.param_option module) dump ->
       exists r,
         fst (Config.main run_command_oracle json_loads build_base_cmd_shell
                container_str now module t)
           = Config.Halt (Config.ExitJson r) /\
         Config.r_changed r = false /\
         Config.r_cmd r = []).
Proof.
  intros H.
  destruct (H Demo.config_oracle Demo.json_loads Demo.build_base_cmd_shell
              Demo.container_str 0%Z
              (Demo.config_module "remove" "osd" "osd_memory_target" None false)
              [] "[...]" EmptyString Demo.config_dump
              eq_refl eq_refl eq_refl demo_no_record_for_osd)
    as (r & Hr & _ & Hcmd).
  vm_compute in Hr. injection Hr as <-. discriminate Hcmd.
Qed.

Lemma config_set_none_literal_witness :
  let module := Demo.config_module "set" "osd" "osd_memory_target"
                  (Some "None") false in
  Config.main Demo.config_oracle Demo.json_loads Demo.build_base_cmd_shell
    Demo.container_str 0 module [] =
    (Config.Halt (Config.ExitJson
       {| Config.r_changed := false;
          Config.r_cmd := [VStr "ceph"; VStr "config"; VStr "dump";
                           VStr "--format"; VStr "json"];
          Config.r_rc := 0;
          Config.r_stdout :=
            VStr "who=osd option=osd_memory_target value=None already set. Skipping.";
          Config.r_stderr := EmptyString;
          Config.r_start := 0 |}),
     [[VStr "ceph"; VStr "config"; VStr "dump"; VStr "--format"; VStr "json"]]).
Proof.
  intros module.
  exact (config_set_none_literal Demo.config_oracle Demo.json_loads
           Demo.build_base_cmd_shell Demo.container_str 0 module []
           "[...]" EmptyString Demo.config_dump
           eq_refl eq_refl eq_refl demo_no_record_for_osd eq_refl).
Defined.

Lemma config_check_mode_witness :
  let module := Demo.config_module "set" "global" "osd_pool_default_size"
                  (Some "4") true in
  snd (Config.main Demo.config_oracle Demo.json_loads Demo.build_base_cmd_shell
         Demo.container_str 0 module []) =
    [[VStr "ceph"; VStr "config"; VStr "dump"; VStr "--format"; VStr "json"]] /\
  exists r,
    fst (Config.main Demo.config_oracle Demo.json_loads
           Demo.build_base_cmd_shell Demo.container_str 0 module []) =
      Config.Halt (Config.ExitJson r) /\
    Config.r_changed r = true /\
    Config.r_stdout r =
      VStr "who=global option=osd_pool_default_size would be set to 4".
Proof.
  intros module.
  destruct (config_check_mode Demo.config_oracle Demo.json_loads
              Demo.build_base_cmd_shell Demo.container_str 0 module []
              eq_refl) as (Htrace & Hverdict).
  split; [exact Htrace|].
  destruct (Hverdict "[...]" EmptyString Demo.config_dump (VStr "3")
              eq_refl eq_refl eq_refl (fun _ => conj eq_refl eq_refl))
    as (r & Hr & Hch & _ & Hout).
  exists r. split; [exact Hr|]. split; [exact Hch|]. exact (Hout eq_refl).
Defined.


(** * Further properties *)

(** ** Equality of values *)

Lemma pyval_nested_ind (P : pyval -> Prop) :
  P VNone ->
  (forall b, P (VBool b)) ->
  (forall n, P (VInt n)) ->
  (forall s, P (VStr s)) ->
  (forall l, Forall P l -> P (VList l)) ->
  (forall d, Forall (fun kv => P (snd kv)) d -> P (VDict d)) ->
  forall v, P v.
Proof.
  intros HN HB HI HS HL HD. fix IH 1. intros [|b|n|s|l|d].
  - exact HN.
  - apply HB.
  - apply HI.
  - apply HS.
  - apply HL. induction l as [|x l IHl]; constructor; [apply IH | exact IHl].
  - apply HD. induction d as [|[k x] d IHd]; constructor; [apply IH | exact IHd].
Qed.

Lemma distinct_not_in k keys :
  existsb (String.eqb k) keys = false -> ~ In k keys.
Proof.
  induction keys as [|k0 rest IH]; cbn [existsb]; [intros _ []|].
  intros H [->|Hin].
  - rewrite String.eqb_refl in H. discriminate.
  - destruct (String.eqb k k0); [discriminate|]. exact (IH H Hin).
Qed.

Lemma dict_get_distinct k v d :
  distinct (map fst d) = true -> In (k, v) d -> dict_get k d = Some v.
Proof.
  induction d as [|[k0 v0] rest IH]; [intros _ []|].
  cbn [map fst distinct dict_get]. intros Hd [Heq|Hin].
  - inversion Heq; subst. rewrite String.eqb_refl. reflexivity.
  - apply andb_prop in Hd as [Hfresh Hrest].
    destruct (String.eqb_spec k k0) as [->|Hne].
    + exfalso. apply negb_true_iff in Hfresh.
      apply (distinct_not_in _ _ Hfresh).
      change k0 with (fst (k0, v)). apply in_map. exact Hin.
    + exact (IH Hrest Hin).
Qed.

Lemma dict_get_absent k d : ~ In k (map fst d) -> dict_get k d = None.
Proof.
  induction d as [|[k0 v0] rest IH]; [reflexivity|].
  cbn [map fst dict_get]. intros Hno.
  destruct (String.eqb_spec k k0) as [->|Hne].
  - exfalso. apply Hno. left. reflexivity.
  - apply IH. intros Hin. apply Hno. right. exact Hin.
Qed.

Lemma keys_unique_dict d :
  keys_unique (VDict d) = true ->
  distinct (map fst d) = true /\
  Forall (fun kv => keys_unique (snd kv) = true) d.
Proof.
  cbn [keys_unique]. intros H. apply andb_prop in H as [Hd Hall].
  split; [exact Hd|]. clear Hd.
  induction d as [|[k x] d IH]; constructor.
  - apply andb_prop in Hall as [Hx _]. exact Hx.
  - apply andb_prop in Hall as [_ Hrest]. exact (IH Hrest).
Qed.

Lemma keys_unique_list l :
  keys_unique (VList l) = true -> Forall (fun x => keys_unique x = true) l.
Proof.
  cbn [keys_unique]. intros Hall.
  induction l as [|x l IH]; constructor.
  - apply andb_prop in Hall as [Hx _]. exact Hx.
  - apply andb_prop in Hall as [_ Hrest]. exact (IH Hrest).
Qed.

(** The comparison of a mapping with another, entry by entry. *)
Lemma py_eq_dict_entries d e :
  length d = length e ->
  (forall k v, In (k, v) d ->
     exists w, dict_get k e = Some w /\ py_eq v w = true) ->
  py_eq (VDict d) (VDict e) = true.
Proof.
  intros Hlen Hall. cbn [py_eq]. rewrite Hlen, Nat.eqb_refl. cbn [andb].
  induction d as [|[k v] d IH] in Hall |- *; [reflexivity|].
  destruct (Hall k v (or_introl eq_refl)) as (w & Hw & Heq).
  rewrite Hw, Heq. cbn [andb].
  apply IH. intros k0 v0 Hin. apply Hall. right. exact Hin.
Qed.

(** [v == v] for every value a program can build. *)
Lemma py_eq_refl v : keys_unique v = true -> py_eq v v = true.
Proof.
  induction v as [|b|n|s|l IH|d IH] using pyval_nested_ind; intros Hu.
  - reflexivity.
  - destruct b; reflexivity.
  - apply Z.eqb_refl.
  - apply String.eqb_refl.
  - apply keys_unique_list in Hu. cbn [py_eq].
    induction l as [|x l IHl]; [reflexivity|].
    inversion IH; subst. inversion Hu; subst.
    rewrite H1 by assumption. cbn [andb]. apply IHl; assumption.
  - apply keys_unique_dict in Hu as [Hd Hvals].
    apply py_eq_dict_entries; [reflexivity|].
    intros k v Hin. exists v. split; [exact (dict_get_distinct _ _ _ Hd Hin)|].
    rewrite List.Forall_forall in IH, Hvals.
    exact (IH (k, v) Hin (Hvals (k, v) Hin)).
Qed.

(** ** More on [change_required] *)

Lemma distinct_NoDup keys : distinct keys = true <-> List.NoDup keys.
Proof.
  induction keys as [|k rest IH]; cbn [distinct].
  - split; [intros _; constructor | reflexivity].
  - rewrite andb_true_iff, negb_true_iff, IH. split.
    + intros [Hfresh Hrest]. apply List.NoDup_cons; [|exact Hrest].
      exact (distinct_not_in _ _ Hfresh).
    + intros Hnd. apply List.NoDup_cons_iff in Hnd as [Hno Hrest].
      split; [|exact Hrest].
      destruct (existsb (String.eqb k) rest) eqn:E; [|reflexivity].
      exfalso. apply Hno. apply existsb_exists in E as (k0 & Hin & Heq).
      apply String.eqb_eq in Heq. subst. exact Hin.
Qed.

Lemma dict_get_insert_other k k0 v0 pre post :
  k <> k0 ->
  dict_get k (pre ++ (k0, v0) :: post) = dict_get k (pre ++ post).
Proof.
  intros Hne. induction pre as [|[k1 v1] pre IH]; cbn [app dict_get].
  - destruct (String.eqb_spec k k0); [contradiction | reflexivity].
  - rewrite IH. reflexivity.
Qed.

Lemma after_host_rule_same st d :
  dict_get "service_type" d = Some st -> after_host_rule st d = d.
Proof.
  intros Hst. unfold after_host_rule.
  destruct (py_eq st (VStr "host")) eqn:Hhost; [|reflexivity].
  apply py_eq_VStr_r in Hhost. subst st. apply dict_set_same. exact Hst.
Qed.

(** No field of [items] asks for a change: each is bound in [d] to an
    equal value, or is an unbound [location]. *)
Lemma compare_items_settled d items :
  (forall k v, In (k, v) items ->
     match dict_get k d with
     | Some cv => py_eq cv v = true
     | None => k = "location"
     end) ->
  compare_items (VDict d) items = inr false.
Proof.
  intros Hall.
  destruct (compare_items_dict d items) as (b & Hb & Hiff).
  rewrite Hb. destruct b; [|reflexivity].
  destruct (proj1 Hiff eq_refl) as (k & v & Hin & Hbad).
  specialize (Hall k v Hin).
  destruct (dict_get k d); [congruence | contradiction].
Qed.

(** X1.  A spec that is the current state, field for field, asks for no
    change: [change_required] returns [False] when [expected] holds the
    bindings of a non-empty [current] that has [service_type]. *)
Theorem change_required_unchanged_spec (w : world) (c e : loc) (d : dict)
    (st : pyval)
    (Hc : heap w !! c = Some (VDict d))
    (He : heap w !! e = Some (VDict d))
    (Hwf : keys_unique (VDict d) = true)
    (Hst : dict_get "service_type" d = Some st) :
  fst (change_required c e w) = Ret false.
Proof.
  assert (Hne : d <> []) by (intros ->; discriminate).
  rewrite (change_required_run _ _ _ _ _ _ Hc Hne He Hst).
  rewrite (after_host_rule_same _ _ Hst). cbn [fst].
  rewrite compare_items_settled; [reflexivity|].
  intros k v Hin. apply keys_unique_dict in Hwf as [Hd Hvals].
  rewrite (dict_get_distinct _ _ _ Hd Hin).
  rewrite List.Forall_forall in Hvals.
  exact (py_eq_refl v (Hvals (k, v) Hin)).
Qed.

(** X2.  The [location] of a spec is not stored by the cluster.  A spec that
    is the current state plus a [location] field, at any position, asks
    for no change when the current state has no [location]. *)
Theorem change_required_location_hint (w : world) (c e : loc)
    (pre post : dict) (hint st : pyval)
    (Hc : heap w !! c = Some (VDict (pre ++ post)))
    (He : heap w !! e = Some (VDict (pre ++ ("location", hint) :: post)))
    (Hwf : keys_unique (VDict (pre ++ post)) = true)
    (Hst : dict_get "service_type" (pre ++ post) = Some st)
    (Hloc : dict_get "location" (pre ++ post) = None) :
  fst (change_required c e w) = Ret false.
Proof.
  assert (Hne : pre ++ post <> []) by (intros Heq; rewrite Heq in Hst; discriminate).
  assert (Hst' : dict_get "service_type" (pre ++ ("location", hint) :: post)
                 = Some st)
    by (rewrite dict_get_insert_other by discriminate; exact Hst).
  rewrite (change_required_run _ _ _ _ _ _ Hc Hne He Hst').
  rewrite (after_host_rule_same _ _ Hst). cbn [fst].
  rewrite compare_items_settled; [reflexivity|].
  intros k v Hin. apply keys_unique_dict in Hwf as [Hd Hvals].
  apply in_app_or in Hin as [Hin|[Heq|Hin]].
  - assert (Hin' : In (k, v) (pre ++ post)) by (apply in_or_app; left; exact Hin).
    rewrite (dict_get_distinct _ _ _ Hd Hin').
    rewrite List.Forall_forall in Hvals.
    exact (py_eq_refl v (Hvals (k, v) Hin')).
  - inversion Heq; subst. rewrite Hloc. reflexivity.
  - assert (Hin' : In (k, v) (pre ++ post)) by (apply in_or_app; right; exact Hin).
    rewrite (dict_get_distinct _ _ _ Hd Hin').
    rewrite List.Forall_forall in Hvals.
    exact (py_eq_refl v (Hvals (k, v) Hin')).
Qed.

(** X3.  The verdict does not depend on the order in which [expected] lists
    its fields, although the loop stops at the first field that differs. *)
Theorem change_required_field_order (w : world) (c e e2 : loc)
    (cur exp exp2 : dict) (st : pyval)
    (Hc : heap w !! c = Some (VDict cur)) (Hne : cur <> [])
    (He : heap w !! e = Some (VDict exp))
    (He2 : heap w !! e2 = Some (VDict exp2))
    (Hperm : Permutation exp exp2)
    (Hkeys : distinct (map fst exp) = true)
    (Hst : dict_get "service_type" exp = Some st) :
  fst (change_required c e w) = fst (change_required c e2 w).
Proof.
  assert (Hst2 : dict_get "service_type" exp2 = Some st).
  { apply dict_get_distinct.
    - apply distinct_NoDup. apply distinct_NoDup in Hkeys.
      eapply Permutation_NoDup; [|exact Hkeys].
      apply Permutation_map. exact Hperm.
    - eapply Permutation_in; [exact Hperm|]. exact (dict_get_In _ _ _ Hst). }
  rewrite (change_required_run _ _ _ _ _ _ Hc Hne He Hst).
  rewrite (change_required_run _ _ _ _ _ _ Hc Hne He2 Hst2). cbn [fst].
  destruct (compare_items_dict (after_host_rule st cur) exp) as (b & Hb & Hiff).
  destruct (compare_items_dict (after_host_rule st cur) exp2) as (b2 & Hb2 & Hiff2).
  rewrite Hb, Hb2. f_equal.
  destruct b, b2; try reflexivity.
  - destruct (proj1 Hiff eq_refl) as (k & v & Hin & Hbad).
    symmetry. apply Hiff2. exists k, v. split; [|exact Hbad].
    eapply Permutation_in; [exact Hperm | exact Hin].
  - destruct (proj1 Hiff2 eq_refl) as (k & v & Hin & Hbad).
    apply Hiff. exists k, v. split; [|exact Hbad].
    eapply Permutation_in; [symmetry; exact Hperm | exact Hin].
Qed.

Lemma py_eq_dict_perm m m2 :
  keys_unique (VDict m) = true -> Permutation m m2 ->
  py_eq (VDict m) (VDict m2) = true.
Proof.
  intros Hwf Hperm. apply keys_unique_dict in Hwf as [Hd Hvals].
  apply py_eq_dict_entries; [exact (Permutation_length Hperm)|].
  intros k v Hin. exists v. split.
  - apply dict_get_distinct.
    + apply distinct_NoDup. apply distinct_NoDup in Hd.
      eapply Permutation_NoDup; [|exact Hd].
      apply Permutation_map. exact Hperm.
    + eapply Permutation_in; [exact Hperm | exact Hin].
  - rewrite List.Forall_forall in Hvals.
    exact (py_eq_refl v (Hvals (k, v) Hin)).
Qed.

(** X4.  The key order inside a nested mapping does not matter either: a spec
    that differs from the current state only in the order of the keys of
    one mapping-valued field asks for no change. *)
Theorem change_required_nested_key_order (w : world) (c e : loc)
    (pre post m m2 : dict) (k : string) (st : pyval)
    (Hc : heap w !! c = Some (VDict (pre ++ (k, VDict m) :: post)))
    (He : heap w !! e = Some (VDict (pre ++ (k, VDict m2) :: post)))
    (Hperm : Permutation m m2)
    (Hwf : keys_unique (VDict (pre ++ (k, VDict m) :: post)) = true)
    (Hk : k <> "service_type")
    (Hst : dict_get "service_type" (pre ++ (k, VDict m) :: post) = Some st) :
  fst (change_required c e w) = Ret false.
Proof.
  assert (Hne : pre ++ (k, VDict m) :: post <> [])
    by (intros Heq; rewrite Heq in Hst; discriminate).
  assert (Hst' : dict_get "service_type" (pre ++ (k, VDict m2) :: post) = Some st).
  { rewrite dict_get_insert_other by (intros Heq; apply Hk; symmetry; exact Heq).
    rewrite dict_get_insert_other in Hst
      by (intros Heq; apply Hk; symmetry; exact Heq).
    exact Hst. }
  rewrite (change_required_run _ _ _ _ _ _ Hc Hne He Hst').
  rewrite (after_host_rule_same _ _ Hst). cbn [fst].
  rewrite compare_items_settled; [reflexivity|].
  apply keys_unique_dict in Hwf as [Hd Hvals].
  rewrite List.Forall_forall in Hvals.
  assert (Hmid : In (k, VDict m) (pre ++ (k, VDict m) :: post))
    by (apply in_or_app; right; left; reflexivity).
  intros k0 v0 Hin. apply in_app_or in Hin as [Hin|[Heq|Hin]].
  - assert (Hin' : In (k0, v0) (pre ++ (k, VDict m) :: post))
      by (apply in_or_app; left; exact Hin).
    rewrite (dict_get_distinct _ _ _ Hd Hin').
    exact (py_eq_refl v0 (Hvals (k0, v0) Hin')).
  - inversion Heq; subst. rewrite (dict_get_distinct _ _ _ Hd Hmid).
    apply py_eq_dict_perm; [|exact Hperm]. exact (Hvals (k0, VDict m) Hmid).
  - assert (Hin' : In (k0, v0) (pre ++ (k, VDict m) :: post))
      by (apply in_or_app; right; right; exact Hin).
    rewrite (dict_get_distinct _ _ _ Hd Hin').
    exact (py_eq_refl v0 (Hvals (k0, v0) Hin')).
Qed.

(** X5.  A non-empty current state compared with a mapping that has no
    [service_type] raises [KeyError] at line 162; nothing was written and
    no verdict is given. *)
Theorem change_required_missing_service_type (w : world) (c e : loc)
    (cur : pyval) (exp : dict)
    (Hc : heap w !! c = Some cur) (Htruthy : py_truthy cur = true)
    (He : heap w !! e = Some (VDict exp))
    (Hst : dict_get "service_type" exp = None) :
  change_required c e w = (Halt (Uncaught (KeyError "service_type")), w).
Proof.
  unfold change_required, bind, load. rewrite Hc, Htruthy. cbn [negb].
  rewrite He. cbn [lift py_getitem]. rewrite Hst. reflexivity.
Qed.

(** ** More on the service module *)

Lemma in_id_services service :
  existsb (fun s => py_eq (VStr service) (VStr s)) id_services = true
  <-> In service id_services.
Proof.
  rewrite existsb_exists. split.
  - intros (s & Hin & Heq). cbn [py_eq] in Heq. apply String.eqb_eq in Heq.
    subst. exact Hin.
  - intros Hin. exists service. split; [exact Hin|].
    cbn [py_eq]. apply String.eqb_refl.
Qed.

Lemma change_required_trace (w : world) (c e : loc) :
  trace (snd (change_required c e w)) = trace w.
Proof.
  unfold change_required, bind, load, store, lift, raise, stop, ret.
  destruct (heap w !! c) as [cur|] eqn:Hc; [|reflexivity].
  destruct (py_truthy cur); [|reflexivity]. cbn [negb].
  destruct (heap w !! e) as [exp|]; [|reflexivity].
  destruct (py_getitem exp "service_type") as [x|st]; [reflexivity|].
  destruct (py_eq st (VStr "host")).
  - rewrite Hc. destruct (py_setitem cur "service_type" (VStr "host")) as [x|new];
      [reflexivity|]. cbn [heap trace].
    destruct (<[c:=new]> (heap w) !! e) as [exp'|]; [|reflexivity].
    destruct (py_items exp') as [x|items]; [reflexivity|]. cbn [heap trace].
    destruct (<[c:=new]> (heap w) !! c) as [cur'|]; [|reflexivity].
    destruct (compare_items cur' items); reflexivity.
  - destruct (heap w !! e) as [exp'|]; [|reflexivity].
    destruct (py_items exp') as [x|items]; [reflexivity|].
    rewrite Hc. destruct (compare_items cur items); reflexivity.
Qed.

Lemma change_required_no_exit (w : world) (c e : loc) (r : exit_record) :
  fst (change_required c e w) <> Halt (ExitJson r).
Proof.
  unfold change_required, bind, load, store, lift, raise, stop, ret.
  destruct (heap w !! c) as [cur|] eqn:Hc; [|discriminate].
  destruct (py_truthy cur); [|discriminate]. cbn [negb].
  destruct (heap w !! e) as [exp|]; [|discriminate].
  destruct (py_getitem exp "service_type") as [x|st]; [discriminate|].
  destruct (py_eq st (VStr "host")).
  - rewrite Hc. destruct (py_setitem cur "service_type" (VStr "host")) as [x|new];
      [discriminate|]. cbn [heap trace].
    destruct (<[c:=new]> (heap w) !! e) as [exp'|]; [|discriminate].
    destruct (py_items exp') as [x|items]; [discriminate|]. cbn [heap trace].
    destruct (<[c:=new]> (heap w) !! c) as [cur'|]; [|discriminate].
    destruct (compare_items cur' items); discriminate.
  - destruct (heap w !! e) as [exp'|]; [|discriminate].
    destruct (py_items exp') as [x|items]; [discriminate|].
    rewrite Hc. destruct (compare_items cur items); discriminate.
Qed.

Section OrchApplyMore.

Variable run_command_oracle : list call -> call -> cmd_out.
Variable yaml_safe_load : string -> exn + pyval.
Variable build_base_cmd_orch : AnsibleModule -> list string.
Variable missing_required_lib : string -> string.
Variable container_str : pyval -> string.
Variable HAS_ANOTHER_LIBRARY : bool.
Variable ANOTHER_LIBRARY_IMPORT_ERROR : option string.
Variable now : Z.

Local Abbreviation retrieve :=
  (retrieve_current_spec run_command_oracle yaml_safe_load build_base_cmd_orch
     container_str).
Local Abbreviation apply :=
  (apply_spec run_command_oracle build_base_cmd_orch).
Local Abbreviation apply_call := (apply_call build_base_cmd_orch).
Local Abbreviation run :=
  (run_module run_command_oracle yaml_safe_load build_base_cmd_orch
     missing_required_lib container_str HAS_ANOTHER_LIBRARY
     ANOTHER_LIBRARY_IMPORT_ERROR now).
Local Abbreviation base module := (map VStr (build_base_cmd_orch module)).

Local Abbreviation after_listing :=
  (after_listing run_command_oracle yaml_safe_load).

Lemma after_listing_trace (cmd : list pyval) (w : world) :
  trace (snd (after_listing cmd w))
    = trace w ++ [{| argv := cmd; stdin := None |}].
Proof.
  unfold after_listing, bind, run_command.
  destruct (run_command_oracle _ _) as [s|rc out err]; [reflexivity|].
  unfold lift. destruct (yaml_safe_load out); reflexivity.
Qed.

Lemma after_listing_heap (cmd : list pyval) (w : world) :
  match fst (after_listing cmd w) with
  | Ret c =>
      c = length (heap w) /\
      exists v, heap (snd (after_listing cmd w)) = heap w ++ [v]
  | Halt _ => heap (snd (after_listing cmd w)) = heap w
  end.
Proof.
  unfold after_listing, bind, run_command.
  destruct (run_command_oracle _ _) as [s|rc out err].
  - split; [reflexivity|]. eexists. reflexivity.
  - unfold lift. destruct (yaml_safe_load out) as [x|v].
    + reflexivity.
    + split; [reflexivity|]. eexists. reflexivity.
Qed.

(** [retrieve_current_spec] for a spec whose [service_type] is a string. *)
Lemma retrieve_string_service (w : world) (module : AnsibleModule) (e : loc)
    (exp : dict) (service : string) :
  heap w !! e = Some (VDict exp) ->
  dict_get "service_type" exp = Some (VStr service) ->
  retrieve module e w =
    if existsb (fun s => py_eq (VStr service) (VStr s)) id_services
    then match dict_get "service_id" exp with
         | Some sid =>
             after_listing
               (base module
                ++ [VStr "ls"; VStr service;
                    VStr (service +:+ "." +:+ py_str container_str sid);
                    VStr "--format=yaml"]) w
         | None => (Halt (Uncaught (KeyError "service_id")), w)
         end
    else if String.eqb service "host"
    then match dict_get "hostname" exp with
         | Some hostname =>
             after_listing
               (base module
                ++ [VStr "host"; VStr "ls"; VStr "--host-pattern"; hostname;
                    VStr "--format=yaml"]) w
         | None => (Halt (Uncaught (KeyError "hostname")), w)
         end
    else after_listing
           (base module
            ++ [VStr "ls"; VStr service; VStr service; VStr "--format=yaml"]) w.
Proof.
  intros He Hst. unfold retrieve_current_spec.
  unfold bind at 1. unfold load. rewrite He.
  unfold bind at 1. unfold lift at 1. cbn [py_getitem]. rewrite Hst. cbn [ret].
  unfold bind at 1.
  destruct (existsb (fun s => py_eq (VStr service) (VStr s)) id_services) eqn:Hid.
  - unfold bind at 1. unfold lift at 1. cbn [py_getitem].
    destruct (dict_get "service_id" exp) as [sid|]; [|reflexivity]. cbn [ret].
    unfold bind at 1.
    assert (Hnh : py_ne (VStr service) (VStr "host") = true).
    { apply in_id_services in Hid. unfold py_ne. cbn [py_eq].
      destruct (String.eqb_spec service "host") as [->|]; [|reflexivity].
      exfalso. cbn [id_services In] in Hid.
      repeat (destruct Hid as [Hid|Hid]; [discriminate|]). exact Hid. }
    rewrite Hnh. reflexivity.
  - cbn [ret]. unfold bind at 1. unfold py_ne. cbn [py_eq].
    destruct (String.eqb service "host"); cbn [negb].
    + unfold bind at 1. unfold lift at 1. cbn [py_getitem].
      destruct (dict_get "hostname" exp) as [hostname|]; reflexivity.
    + reflexivity.
Qed.

(** X6.  The listing command.  For a service type of the id-carrying set the
    service is listed under [type.id]; a host is looked up with
    [host ls --host-pattern]; any other service is listed under its bare
    type.  Whatever the cluster answers, that one command, without
    standard input, is all [retrieve_current_spec] runs. *)
Theorem retrieve_current_spec_listing (w : world) (module : AnsibleModule)
    (e : loc) (exp : dict) (service : string)
    (He : heap w !! e = Some (VDict exp))
    (Hst : dict_get "service_type" exp = Some (VStr service)) :
  let issued argv :=
    trace (snd (retrieve module e w))
      = trace w ++ [{| argv := base module ++ argv; stdin := None |}] in
  (In service id_services ->
   forall sid, dict_get "service_id" exp = Some sid ->
     issued [VStr "ls"; VStr service;
             VStr (service +:+ "." +:+ py_str container_str sid);
             VStr "--format=yaml"]) /\
  (service = "host" ->
   forall hostname, dict_get "hostname" exp = Some hostname ->
     issued [VStr "host"; VStr "ls"; VStr "--host-pattern"; hostname;
             VStr "--format=yaml"]) /\
  (~ In service id_services -> service <> "host" ->
   issued [VStr "ls"; VStr service; VStr service; VStr "--format=yaml"]).
Proof.
  cbv zeta. rewrite (retrieve_string_service _ _ _ _ _ He Hst).
  split; [|split].
  - intros Hin sid Hsid. rewrite (proj2 (in_id_services service) Hin), Hsid.
    apply after_listing_trace.
  - intros -> hostname Hhn. change (existsb _ id_services) with false.
    cbn iota. change (String.eqb "host" "host") with true. cbn iota.
    rewrite Hhn. apply after_listing_trace.
  - intros Hnot Hnh.
    destruct (existsb (fun s => py_eq (VStr service) (VStr s)) id_services) eqn:Hid;
      [exfalso; apply Hnot; apply in_id_services; exact Hid|].
    destruct (String.eqb_spec service "host"); [contradiction|].
    apply after_listing_trace.
Qed.

(** X7.  A spec that lacks a key the listing needs raises [KeyError] before
    any command is run: [service_type] always, [service_id] for the
    id-carrying service types, [hostname] for a host. *)
Theorem retrieve_current_spec_missing_key (w : world) (module : AnsibleModule)
    (e : loc) (exp : dict)
    (He : heap w !! e = Some (VDict exp)) :
  (dict_get "service_type" exp = None ->
   retrieve module e w = (Halt (Uncaught (KeyError "service_type")), w)) /\
  (forall service,
     dict_get "service_type" exp = Some (VStr service) ->
     In service id_services ->
     dict_get "service_id" exp = None ->
     retrieve module e w = (Halt (Uncaught (KeyError "service_id")), w)) /\
  (dict_get "service_type" exp = Some (VStr "host") ->
   dict_get "hostname" exp = None ->
   retrieve module e w = (Halt (Uncaught (KeyError "hostname")), w)).
Proof.
  split; [|split].
  - intros Hst. unfold retrieve_current_spec, bind, load. rewrite He.
    cbn [lift py_getitem]. rewrite Hst. reflexivity.
  - intros service Hst Hin Hsid.
    rewrite (retrieve_string_service _ _ _ _ _ He Hst).
    rewrite (proj2 (in_id_services service) Hin), Hsid. reflexivity.
  - intros Hst Hhn. rewrite (retrieve_string_service _ _ _ _ _ He Hst).
    change (existsb _ id_services) with false. cbn iota.
    change (String.eqb "host" "host") with true. cbn iota.
    rewrite Hhn. reflexivity.
Qed.

(** X8.  The current state is a new object.  When [retrieve_current_spec]
    returns, its result is the location past the end of the old heap and
    every object that existed - the expected spec among them - is as it
    was; when it raises, the heap is as it was. *)
Theorem retrieve_current_spec_fresh (w : world) (module : AnsibleModule)
    (e : loc) :
  match fst (retrieve module e w) with
  | Ret c =>
      c = length (heap w) /\
      exists v, heap (snd (retrieve module e w)) = heap w ++ [v]
  | Halt _ => heap (snd (retrieve module e w)) = heap w
  end.
Proof.
  assert (Hstay : forall (h : halt),
            match fst (@Halt nat h, w) with
            | Ret c => c = length (heap w) /\
                       exists v, heap (snd (@Halt nat h, w)) = heap w ++ [v]
            | Halt _ => heap (snd (@Halt nat h, w)) = heap w
            end) by (intros h; reflexivity).
  remember (retrieve module e w) as r eqn:Hr.
  unfold retrieve_current_spec in Hr.
  unfold bind at 1 in Hr. unfold load in Hr.
  destruct (heap w !! e) as [exp|]; [|subst r; apply Hstay].
  unfold bind at 1 in Hr. unfold lift at 1 in Hr.
  destruct (py_getitem exp "service_type") as [x|service];
    [subst r; apply Hstay|].
  cbn [ret] in Hr. unfold bind at 1 in Hr.
  destruct (existsb (fun s => py_eq service (VStr s)) id_services).
  - unfold bind at 1 in Hr. unfold lift at 1 in Hr.
    destruct (py_getitem exp "service_id") as [x|sid]; [subst r; apply Hstay|].
    cbn [ret] in Hr. unfold bind at 1 in Hr.
    destruct (py_ne service (VStr "host")).
    + cbn [ret] in Hr. subst r. apply after_listing_heap.
    + unfold bind at 1 in Hr. unfold lift at 1 in Hr.
      destruct (py_getitem exp "hostname") as [x|hostname];
        [subst r; apply Hstay|].
      cbn [ret] in Hr. subst r. apply after_listing_heap.
  - cbn [ret] in Hr. unfold bind at 1 in Hr.
    destruct (py_ne service (VStr "host")).
    + cbn [ret] in Hr. subst r. apply after_listing_heap.
    + unfold bind at 1 in Hr. unfold lift at 1 in Hr.
      destruct (py_getitem exp "hostname") as [x|hostname];
        [subst r; apply Hstay|].
      cbn [ret] in Hr. subst r. apply after_listing_heap.
Qed.


Lemma parse_spec_world (spec : string) (w : world) :
  parse_spec yaml_safe_load spec w =
    match yaml_safe_load spec with
    | inl x => (Halt (Uncaught x), w)
    | inr v => (Ret (length (heap w)),
                {| heap := heap w ++ [v]; trace := trace w |})
    end.
Proof.
  unfold parse_spec, bind, lift. destruct (yaml_safe_load spec); reflexivity.
Qed.

Lemma retrieve_trace (w : world) (module : AnsibleModule) (e : loc) :
  match fst (retrieve module e w) with
  | Ret _ =>
      exists listing,
        stdin listing = None /\
        trace (snd (retrieve module e w)) = trace w ++ [listing]
  | Halt _ =>
      trace (snd (retrieve module e w)) = trace w \/
      exists listing,
        stdin listing = None /\
        trace (snd (retrieve module e w)) = trace w ++ [listing]
  end.
Proof.
  assert (Hlisted : forall cmd,
            match fst (after_listing cmd w) with
            | Ret _ =>
                exists listing,
                  stdin listing = None /\
                  trace (snd (after_listing cmd w)) = trace w ++ [listing]
            | Halt _ =>
                trace (snd (after_listing cmd w)) = trace w \/
                exists listing,
                  stdin listing = None /\
                  trace (snd (after_listing cmd w)) = trace w ++ [listing]
            end).
  { intros cmd. pose proof (after_listing_trace cmd w) as Ht.
    destruct (fst (after_listing cmd w)); [|right];
      (eexists; split; [|exact Ht]; reflexivity). }
  assert (Hstay : forall (h : halt),
            match fst (@Halt nat h, w) with
            | Ret _ =>
                exists listing,
                  stdin listing = None /\
                  trace (snd (@Halt nat h, w)) = trace w ++ [listing]
            | Halt _ =>
                trace (snd (@Halt nat h, w)) = trace w \/
                exists listing,
                  stdin listing = None /\
                  trace (snd (@Halt nat h, w)) = trace w ++ [listing]
            end) by (intros h; left; reflexivity).
  remember (retrieve module e w) as r eqn:Hr.
  unfold retrieve_current_spec in Hr.
  unfold bind at 1 in Hr. unfold load in Hr.
  destruct (heap w !! e) as [exp|]; [|subst r; apply Hstay].
  unfold bind at 1 in Hr. unfold lift at 1 in Hr.
  destruct (py_getitem exp "service_type") as [x|service];
    [subst r; apply Hstay|].
  cbn [ret] in Hr. unfold bind at 1 in Hr.
  destruct (existsb (fun s => py_eq service (VStr s)) id_services).
  - unfold bind at 1 in Hr. unfold lift at 1 in Hr.
    destruct (py_getitem exp "service_id") as [x|sid]; [subst r; apply Hstay|].
    cbn [ret] in Hr. unfold bind at 1 in Hr.
    destruct (py_ne service (VStr "host")).
    + cbn [ret] in Hr. subst r. apply Hlisted.
    + unfold bind at 1 in Hr. unfold lift at 1 in Hr.
      destruct (py_getitem exp "hostname") as [x|hostname];
        [subst r; apply Hstay|].
      cbn [ret] in Hr. subst r. apply Hlisted.
  - cbn [ret] in Hr. unfold bind at 1 in Hr.
    destruct (py_ne service (VStr "host")).
    + cbn [ret] in Hr. subst r. apply Hlisted.
    + unfold bind at 1 in Hr. unfold lift at 1 in Hr.
      destruct (py_getitem exp "hostname") as [x|hostname];
        [subst r; apply Hstay|].
      cbn [ret] in Hr. subst r. apply Hlisted.
Qed.

Lemma apply_spec_trace (w : world) (module : AnsibleModule) (data : string) :
  trace (snd (apply module data w)) = trace w ++ [apply_call module data].
Proof.
  unfold apply_spec, bind, run_command.
  destruct (run_command_oracle _ _) as [s|rc out err].
  - destruct s as [|a [|b [|c [|d s]]]]; reflexivity.
  - destruct (negb (rc =? 0)%Z); reflexivity.
Qed.

(** What [apply_spec] returns is the call's own answer with exit code 0. *)
Lemma apply_spec_returns (w w' : world) (module : AnsibleModule)
    (data : string) (rc : Z) (cmd : list pyval) (out err : string) :
  apply module data w = (Ret (rc, cmd, out, err), w') ->
  rc = 0%Z /\ cmd = argv (apply_call module data) /\
  run_command_oracle (trace w) (apply_call module data) = OutTuple 0 out err.
Proof.
  unfold apply_spec, bind, run_command.
  change {| argv := map VStr (build_base_cmd_orch module)
                     ++ [VStr "apply"; VStr "-i"; VStr "-"];
            stdin := Some data |}
    with (apply_call module data).
  destruct (run_command_oracle _ _) as [s|rc0 out0 err0].
  - destruct s as [|a [|b [|c [|d s]]]]; discriminate.
  - destruct (Z.eqb_spec rc0 0) as [->|Hne]; cbn [negb]; [|discriminate].
    intros H. injection H as <- <- <- <- _. repeat split.
Qed.

(** A write that succeeds.  When [orch apply] exits with 0, [apply_spec]
    returns that code, the command it ran and the captured output; the
    data went to the command's standard input as it was given, and no
    object was touched. *)
Lemma apply_spec_success (w : world) (module : AnsibleModule)
    (data out err : string)
    (Hok : run_command_oracle (trace w) (apply_call module data)
           = OutTuple 0 out err) :
  apply module data w =
    (Ret (0%Z,
          base module ++ [VStr "apply"; VStr "-i"; VStr "-"],
          out, err),
     {| heap := heap w;
        trace := trace w
                 ++ [{| argv := base module
                                ++ [VStr "apply"; VStr "-i"; VStr "-"];
                        stdin := Some data |}] |}).
Proof.
  unfold apply_spec, bind, run_command.
  change {| argv := map VStr (build_base_cmd_orch module)
                     ++ [VStr "apply"; VStr "-i"; VStr "-"];
            stdin := Some data |}
    with (apply_call module data).
  rewrite Hok. reflexivity.
Qed.

(** Runs [run_module] to the point where the current state is compared. *)
Lemma run_module_compared (w w1 w2 : world) (module : AnsibleModule)
    (e c : loc) :
  HAS_ANOTHER_LIBRARY = true ->
  check_mode module = false ->
  parse_spec yaml_safe_load (param_spec module) w = (Ret e, w1) ->
  retrieve module e w1 = (Ret c, w2) ->
  run module w =
    match change_required c e w2 with
    | (Ret true, w3) =>
        match apply module (param_spec module) w3 with
        | (Ret (rc, cmd, out, err), w4) =>
            (Halt (ExitJson {| r_changed := true; r_cmd := cmd; r_rc := rc;
                               r_stdout := out; r_stderr := err;
                               r_start := now |}), w4)
        | (Halt h, w4) => (Halt h, w4)
        end
    | (Ret false, w3) =>
        (Halt (ExitJson {| r_changed := false; r_cmd := []; r_rc := 0;
                           r_stdout := EmptyString; r_stderr := EmptyString;
                           r_start := now |}), w3)
    | (Halt h, w3) => (Halt h, w3)
    end.
Proof.
  intros Hlib Hcheck Hparse Hret.
  unfold run_module. rewrite Hlib, Hcheck. cbn [negb].
  unfold bind at 1. cbn [ret]. unfold bind at 1. cbn [ret].
  unfold bind at 1. rewrite Hparse.
  unfold bind at 1. rewrite Hret.
  unfold bind at 1.
  destruct (change_required c e w2) as [[[|]|h] w3]; [|reflexivity|reflexivity].
  unfold bind at 1.
  destruct (apply module (param_spec module) w3) as [[[[[rc cmd] out] err]|h] w4];
    reflexivity.
Qed.

(** X9.  No change, no write.  When the comparison says no change is required,
    the module reports [changed=False] with an empty command, exit code
    0 and empty output; the world is the one the comparison left, so
    [orch apply] has not run. *)
Theorem run_module_no_change (w w1 w2 w3 : world) (module : AnsibleModule)
    (e c : loc)
    (Hlib : HAS_ANOTHER_LIBRARY = true)
    (Hcheck : check_mode module = false)
    (Hparse : parse_spec yaml_safe_load (param_spec module) w = (Ret e, w1))
    (Hret : retrieve module e w1 = (Ret c, w2))
    (Hsame : change_required c e w2 = (Ret false, w3)) :
  run module w =
    (Halt (ExitJson {| r_changed := false; r_cmd := []; r_rc := 0;
                       r_stdout := EmptyString; r_stderr := EmptyString;
                       r_start := now |}),
     w3) /\
  trace w3 = trace w2.
Proof.
  split.
  - rewrite (run_module_compared _ _ _ _ _ _ Hlib Hcheck Hparse Hret), Hsame.
    reflexivity.
  - pose proof (change_required_trace w2 c e) as Ht. rewrite Hsame in Ht.
    exact Ht.
Qed.

(** X10.  A change that is applied.  When the comparison asks for a change and
    [orch apply] exits with 0, the module reports [changed=True] with the
    apply command, its output and its stderr; the last command run is
    that write, with the raw [spec] parameter on standard input. *)
Theorem run_module_applied (w w1 w2 w3 : world) (module : AnsibleModule)
    (e c : loc) (out err : string)
    (Hlib : HAS_ANOTHER_LIBRARY = true)
    (Hcheck : check_mode module = false)
    (Hparse : parse_spec yaml_safe_load (param_spec module) w = (Ret e, w1))
    (Hret : retrieve module e w1 = (Ret c, w2))
    (Hdiff : change_required c e w2 = (Ret true, w3))
    (Hok : run_command_oracle (trace w3) (apply_call module (param_spec module))
           = OutTuple 0 out err) :
  run module w =
    (Halt (ExitJson
       {| r_changed := true;
          r_cmd := base module ++ [VStr "apply"; VStr "-i"; VStr "-"];
          r_rc := 0; r_stdout := out; r_stderr := err; r_start := now |}),
     {| heap := heap w3;
        trace := trace w3
                 ++ [{| argv := base module
                                ++ [VStr "apply"; VStr "-i"; VStr "-"];
                        stdin := Some (param_spec module) |}] |}).
Proof.
  rewrite (run_module_compared _ _ _ _ _ _ Hlib Hcheck Hparse Hret), Hdiff.
  rewrite (apply_spec_success _ _ _ _ _ Hok). reflexivity.
Qed.

(** X11.  Without the YAML library the module fails at once, in check mode
    too: the failure carries the message of [missing_required_lib] and
    the import traceback, and the world is untouched. *)
Theorem run_module_missing_library (w : world) (module : AnsibleModule)
    (Hlib : HAS_ANOTHER_LIBRARY = false) :
  run module w =
    (Halt (FailJson (missing_required_lib "another_library")
             ANOTHER_LIBRARY_IMPORT_ERROR),
     w).
Proof.
  unfold run_module. rewrite Hlib. reflexivity.
Qed.

(** X12.  A spec that does not load as YAML ends the module in the loader's
    exception before any command is run. *)
Theorem run_module_parse_error (w : world) (module : AnsibleModule) (x : exn)
    (Hlib : HAS_ANOTHER_LIBRARY = true)
    (Hcheck : check_mode module = false)
    (Hyaml : yaml_safe_load (param_spec module) = inl x) :
  run module w = (Halt (Uncaught x), w).
Proof.
  unfold run_module. rewrite Hlib, Hcheck. cbn [negb].
  unfold bind at 1. cbn [ret]. unfold bind at 1. cbn [ret].
  unfold bind at 1. rewrite parse_spec_world, Hyaml. reflexivity.
Qed.

(** X13.  One read, then at most one write.  Whatever the module parameters
    and the cluster, an invocation runs no command, or one listing
    without standard input, or that listing followed by [orch apply]
    with the raw [spec] parameter on standard input - never more, and
    never a write without the read before it. *)
Theorem run_module_commands (w : world) (module : AnsibleModule) :
  let after := trace (snd (run module w)) in
  after = trace w \/
  exists listing,
    stdin listing = None /\
    (after = trace w ++ [listing] \/
     after = trace w ++ [listing; apply_call module (param_spec module)]).
Proof.
  cbv zeta. remember (run module w) as r eqn:Hr.
  unfold run_module in Hr.
  destruct HAS_ANOTHER_LIBRARY; cbn [negb] in Hr;
    [|subst r; left; reflexivity].
  unfold bind at 1 in Hr. cbn [ret] in Hr.
  destruct (check_mode module); [subst r; left; reflexivity|].
  unfold bind at 1 in Hr. cbn [ret] in Hr.
  unfold bind at 1 in Hr. rewrite parse_spec_world in Hr.
  destruct (yaml_safe_load (param_spec module)) as [x|v];
    [subst r; left; reflexivity|].
  set (w1 := {| heap := heap w ++ [v]; trace := trace w |}) in Hr.
  unfold bind at 1 in Hr.
  pose proof (retrieve_trace w1 module (length (heap w))) as Hlist.
  destruct (retrieve module (length (heap w)) w1) as [[c|h] w2];
    cbn [fst snd] in Hlist.
  2:{ subst r. cbn [snd]. destruct Hlist as [Ht|(l & Hl & Ht)].
      - left. exact Ht.
      - right. exists l. split; [exact Hl|]. left. exact Ht. }
  destruct Hlist as (l & Hl & Ht). right. exists l. split; [exact Hl|].
  unfold bind at 1 in Hr.
  pose proof (change_required_trace w2 c (length (heap w))) as Hcmp.
  destruct (change_required c (length (heap w)) w2) as [[[|]|h] w3];
    cbn [snd] in Hcmp.
  - right. unfold bind at 1 in Hr.
    pose proof (apply_spec_trace w3 module (param_spec module)) as Happ.
    destruct (apply module (param_spec module) w3)
      as [[[[[rc cmd] out] err]|h] w4]; cbn [snd] in Happ; subst r;
      cbn [snd exit_module stop]; rewrite Happ, Hcmp, Ht;
      rewrite <- app_assoc; reflexivity.
  - left. subst r. cbn [snd exit_module stop]. rewrite Hcmp. exact Ht.
  - left. subst r. cbn [snd]. rewrite Hcmp. exact Ht.
Qed.

Lemma after_listing_no_exit (cmd : list pyval) (w : world) (r : exit_record) :
  fst (after_listing cmd w) <> Halt (ExitJson r).
Proof.
  unfold after_listing, bind, run_command.
  destruct (run_command_oracle _ _) as [s|rc out err]; [discriminate|].
  unfold lift. destruct (yaml_safe_load out); discriminate.
Qed.

Lemma retrieve_no_exit (w : world) (module : AnsibleModule) (e : loc)
    (r : exit_record) :
  fst (retrieve module e w) <> Halt (ExitJson r).
Proof.
  remember (retrieve module e w) as res eqn:Hr.
  unfold retrieve_current_spec in Hr.
  unfold bind at 1 in Hr. unfold load in Hr.
  destruct (heap w !! e) as [exp|]; [|subst res; discriminate].
  unfold bind at 1 in Hr. unfold lift at 1 in Hr.
  destruct (py_getitem exp "service_type") as [x|service];
    [subst res; discriminate|].
  cbn [ret] in Hr. unfold bind at 1 in Hr.
  destruct (existsb (fun s => py_eq service (VStr s)) id_services).
  - unfold bind at 1 in Hr. unfold lift at 1 in Hr.
    destruct (py_getitem exp "service_id") as [x|sid];
      [subst res; discriminate|].
    cbn [ret] in Hr. unfold bind at 1 in Hr.
    destruct (py_ne service (VStr "host")).
    + cbn [ret] in Hr. subst res. apply after_listing_no_exit.
    + unfold bind at 1 in Hr. unfold lift at 1 in Hr.
      destruct (py_getitem exp "hostname") as [x|hostname];
        [subst res; discriminate|].
      cbn [ret] in Hr. subst res. apply after_listing_no_exit.
  - cbn [ret] in Hr. unfold bind at 1 in Hr.
    destruct (py_ne service (VStr "host")).
    + cbn [ret] in Hr. subst res. apply after_listing_no_exit.
    + unfold bind at 1 in Hr. unfold lift at 1 in Hr.
      destruct (py_getitem exp "hostname") as [x|hostname];
        [subst res; discriminate|].
      cbn [ret] in Hr. subst res. apply after_listing_no_exit.
Qed.

Lemma apply_spec_no_exit (w : world) (module : AnsibleModule) (data : string)
    (r : exit_record) :
  fst (apply module data w) <> Halt (ExitJson r).
Proof.
  unfold apply_spec, bind, run_command.
  destruct (run_command_oracle _ _) as [s|rc out err].
  - destruct s as [|a [|b [|c [|d s]]]]; discriminate.
  - destruct (negb (rc =? 0)%Z); discriminate.
Qed.

(** A step that cannot exit through [exit_module] did not produce the
    reported outcome. *)
Ltac absurd_exit Hn He :=
  exfalso; cbn [fst] in He, Hn; injection He as He; subst; apply Hn;
  reflexivity.

(** X14.  The report is truthful about the write.  An outcome reported through
    [exit_module] has exit code 0.  It says [changed=False] with an empty
    command, or it says [changed=True] with the apply command, and then
    [orch apply] was the last command run, exited with 0, and its output
    and stderr are the ones reported. *)
Theorem run_module_report (w : world) (module : AnsibleModule)
    (r : exit_record)
    (Hexit : fst (run module w) = Halt (ExitJson r)) :
  r_rc r = 0%Z /\
  ((r_changed r = false /\ r_cmd r = []) \/
   (r_changed r = true /\
    r_cmd r = argv (apply_call module (param_spec module)) /\
    exists before,
      trace (snd (run module w))
        = before ++ [apply_call module (param_spec module)] /\
      run_command_oracle before (apply_call module (param_spec module))
        = OutTuple 0 (r_stdout r) (r_stderr r))).
Proof.
  remember (run module w) as res eqn:Hr.
  unfold run_module in Hr.
  destruct HAS_ANOTHER_LIBRARY; cbn [negb] in Hr;
    [|subst res; discriminate].
  unfold bind at 1 in Hr. cbn [ret] in Hr.
  destruct (check_mode module).
  { subst res. cbn in Hexit. injection Hexit as Hrec; subst r.
    split; [reflexivity|]. left. split; reflexivity. }
  unfold bind at 1 in Hr. cbn [ret] in Hr.
  unfold bind at 1 in Hr. rewrite parse_spec_world in Hr.
  destruct (yaml_safe_load (param_spec module)) as [x|v];
    [subst res; discriminate|].
  set (w1 := {| heap := heap w ++ [v]; trace := trace w |}) in Hr.
  unfold bind at 1 in Hr.
  pose proof (retrieve_no_exit w1 module (length (heap w)) r) as Hnr.
  destruct (retrieve module (length (heap w)) w1) as [[c|h] w2];
    [|subst res; absurd_exit Hnr Hexit].
  unfold bind at 1 in Hr.
  pose proof (change_required_no_exit w2 c (length (heap w)) r) as Hnc.
  destruct (change_required c (length (heap w)) w2) as [[[|]|h] w3];
    [| |subst res; absurd_exit Hnc Hexit].
  - unfold bind at 1 in Hr.
    pose proof (apply_spec_trace w3 module (param_spec module)) as Happ.
    pose proof (apply_spec_no_exit w3 module (param_spec module) r) as Hna.
    destruct (apply module (param_spec module) w3)
      as [[[[[rc cmd] out] err]|h] w4] eqn:Happly;
      [|subst res; absurd_exit Hna Hexit].
    apply apply_spec_returns in Happly as (-> & -> & Hok).
    subst res. cbn in Hexit. injection Hexit as Hrec; subst r. cbn [snd] in *.
    split; [reflexivity|]. right. split; [reflexivity|]. split; [reflexivity|].
    exists (trace w3). split; [exact Happ | exact Hok].
  - subst res. cbn in Hexit. injection Hexit as Hrec; subst r.
    split; [reflexivity|]. left. split; reflexivity.
Qed.

End OrchApplyMore.

(** ** More on the config module *)

Lemma get_current_value_skip who option pre rest :
  Config.no_record_matches who option pre ->
  Config.get_current_value who option (pre ++ rest)
    = Config.get_current_value who option rest.
Proof.
  induction 1 as [|config pre (section & Hsec & Hwhy) _ IH]; [reflexivity|].
  cbn [app Config.get_current_value py_getitem]. rewrite Hsec.
  destruct Hwhy as [Hne | (name & Hname & Hne)].
  - rewrite Hne. exact IH.
  - destruct (py_eq section (VStr who)); [|exact IH].
    rewrite Hname, Hne. exact IH.
Qed.

(** X15.  The first record for [(who, option)] decides.  Past records that are
    for something else, the lookup returns the [value] of the first
    record whose [section] and [name] match - whatever follows it, other
    records for the same pair included - and raises [KeyError] if that
    record has no [value]. *)
Theorem get_current_value_first_match (who option : string)
    (pre post : list dict) (config : dict) (section name : pyval)
    (Hpre : Config.no_record_matches who option pre)
    (Hsec : dict_get "section" config = Some section)
    (Hwho : py_eq section (VStr who) = true)
    (Hname : dict_get "name" config = Some name)
    (Hopt : py_eq name (VStr option) = true) :
  Config.get_current_value who option (pre ++ config :: post) =
    match dict_get "value" config with
    | Some v => inr v
    | None => inl (KeyError "value")
    end.
Proof.
  rewrite (get_current_value_skip _ _ _ _ Hpre).
  cbn [Config.get_current_value py_getitem].
  rewrite Hsec, Hwho, Hname, Hopt. reflexivity.
Qed.

(** X16.  A record the lookup reaches must have the keys it reads: one without
    [section] raises [KeyError], and so does one for [who] without
    [name].  A record for another section is passed over without its
    [name] being read. *)
Theorem get_current_value_malformed_record (who option : string)
    (pre post : list dict) (config : dict)
    (Hpre : Config.no_record_matches who option pre) :
  (dict_get "section" config = None ->
   Config.get_current_value who option (pre ++ config :: post)
     = inl (KeyError "section")) /\
  (forall section,
     dict_get "section" config = Some section ->
     py_eq section (VStr who) = true ->
     dict_get "name" config = None ->
     Config.get_current_value who option (pre ++ config :: post)
       = inl (KeyError "name")) /\
  (forall section,
     dict_get "section" config = Some section ->
     py_eq section (VStr who) = false ->
     Config.get_current_value who option (pre ++ config :: post)
       = Config.get_current_value who option post).
Proof.
  rewrite (get_current_value_skip _ _ _ _ Hpre).
  cbn [Config.get_current_value py_getitem]. split; [|split].
  - intros ->. reflexivity.
  - intros section -> -> ->. reflexivity.
  - intros section -> ->. reflexivity.
Qed.

Section ConfigMore.

Variable run_command_oracle :
  list Config.call -> Config.call -> Z * string * string.
Variable json_loads : string -> exn + list dict.
Variable build_base_cmd_shell : Config.AnsibleModule -> list string.
Variable container_str : pyval -> string.
Variable now : Z.

Local Abbreviation main :=
  (Config.main run_command_oracle json_loads build_base_cmd_shell
     container_str now).
Local Abbreviation dump_cmd := (Config.dump_cmd build_base_cmd_shell).
Local Abbreviation set_cmd := (Config.set_cmd build_base_cmd_shell).
Local Abbreviation rm_cmd := (Config.rm_cmd build_base_cmd_shell).
Local Abbreviation py_str := (Config.py_str container_str).

Ltac run_dump Hm Hdump :=
  unfold Config.main, Config.get_config_dump, Config.run_command in Hm;
  unfold Config.bind at 1 in Hm; unfold Config.bind at 1 in Hm;
  rewrite Hdump in Hm; cbn [Z.eqb negb Config.ret] in Hm.

Ltac run_fetch Hm Hdump Hjson Hcur :=
  run_dump Hm Hdump;
  unfold Config.bind at 1 in Hm; rewrite Hjson in Hm;
  cbn [Config.lift Config.ret] in Hm;
  unfold Config.bind at 1 in Hm; rewrite Hcur in Hm;
  cbn [Config.lift Config.ret] in Hm.

(** X17.  Reading is read-only.  With an action that is neither [set] nor
    [remove] - [get], by the argument spec - the dump is the only command
    run, in check mode or not, and the outcome reports [changed=False]:
    the current value as output when there is one, and otherwise empty
    output with a "No value found" message as stderr. *)
Theorem config_get_reads_only (module : Config.AnsibleModule)
    (t : list Config.call) (out err : string) (dump : list dict) (cur : pyval)
    (Hset : Config.param_action module <> "set")
    (Hrm : Config.param_action module <> "remove")
    (Hdump : run_command_oracle t (dump_cmd module) = (0%Z, out, err))
    (Hjson : json_loads (strip out) = inr dump)
    (Hcur : Config.get_current_value (Config.param_who module)
              (Config.param_option module) dump = inr cur) :
  main module t =
    (Config.Halt (Config.ExitJson
       {| Config.r_changed := false;
          Config.r_cmd := dump_cmd module;
          Config.r_rc := 0;
          Config.r_stdout :=
            match cur with VNone => VStr EmptyString | _ => cur end;
          Config.r_stderr :=
            match cur with
            | VNone => "No value found for who=" +:+ Config.param_who module
                       +:+ " option=" +:+ Config.param_option module
            | _ => err
            end;
          Config.r_start := now |}),
     t ++ [dump_cmd module]).
Proof.
  remember (main module t) as m eqn:Hm.
  run_fetch Hm Hdump Hjson Hcur.
  destruct (String.eqb_spec (Config.param_action module) "set");
    [contradiction|].
  destruct (String.eqb_spec (Config.param_action module) "remove");
    [contradiction|].
  destruct cur; exact Hm.
Qed.

(** X18.  A removal that is carried out.  With [action=remove], a current
    value, no check mode and [config rm] exiting with 0, the module runs
    the dump and then [config rm who option], and reports [changed=True]
    with that command, its stripped output and its stderr. *)
Theorem config_remove_present (module : Config.AnsibleModule)
    (t : list Config.call) (out err out2 err2 : string) (dump : list dict)
    (cur : pyval)
    (Haction : Config.param_action module = "remove")
    (Hcheck : Config.check_mode module = false)
    (Hdump : run_command_oracle t (dump_cmd module) = (0%Z, out, err))
    (Hjson : json_loads (strip out) = inr dump)
    (Hcur : Config.get_current_value (Config.param_who module)
              (Config.param_option module) dump = inr cur)
    (Hsome : cur <> VNone)
    (Hok : run_command_oracle (t ++ [dump_cmd module])
             (rm_cmd module (Config.param_who module)
                (Config.param_option module))
           = (0%Z, out2, err2)) :
  main module t =
    (Config.Halt (Config.ExitJson
       {| Config.r_changed := true;
          Config.r_cmd :=
            map VStr (build_base_cmd_shell module)
            ++ [VStr "ceph"; VStr "config"; VStr "rm";
                VStr (Config.param_who module);
                VStr (Config.param_option module)];
          Config.r_rc := 0;
          Config.r_stdout := VStr (strip out2);
          Config.r_stderr := err2;
          Config.r_start := now |}),
     t ++ [dump_cmd module;
           rm_cmd module (Config.param_who module)
             (Config.param_option module)]).
Proof.
  remember (main module t) as m eqn:Hm.
  run_fetch Hm Hdump Hjson Hcur. rewrite Haction in Hm.
  change (String.eqb "remove" "set") with false in Hm.
  change (String.eqb "remove" "remove") with true in Hm. cbn iota in Hm.
  destruct cur; [contradiction | ..]; rewrite Hcheck in Hm;
    unfold Config.remove_option, Config.bind, Config.run_command in Hm;
    rewrite Hok in Hm; subst m; cbn; rewrite <- app_assoc; reflexivity.
Qed.

(** X19.  Output that cannot be used ends the module after the read.  When the
    dump does not decode, or the lookup raises on a malformed record,
    the exception is not caught: the dump is the only command run and no
    outcome is reported. *)
Theorem config_unreadable_dump (module : Config.AnsibleModule)
    (t : list Config.call) (out err : string)
    (Hdump : run_command_oracle t (dump_cmd module) = (0%Z, out, err)) :
  (forall x,
     json_loads (strip out) = inl x ->
     main module t = (Config.Halt (Config.Uncaught x), t ++ [dump_cmd module]))
  /\
  (forall dump x,
     json_loads (strip out) = inr dump ->
     Config.get_current_value (Config.param_who module)
       (Config.param_option module) dump = inl x ->
     main module t = (Config.Halt (Config.Uncaught x), t ++ [dump_cmd module])).
Proof.
  split.
  - intros x Hjson. remember (main module t) as m eqn:Hm.
    run_dump Hm Hdump. unfold Config.bind at 1 in Hm. rewrite Hjson in Hm.
    exact Hm.
  - intros dump x Hjson Hcur. remember (main module t) as m eqn:Hm.
    run_dump Hm Hdump. unfold Config.bind at 1 in Hm. rewrite Hjson in Hm.
    cbn [Config.lift Config.ret] in Hm.
    unfold Config.bind at 1 in Hm. rewrite Hcur in Hm. exact Hm.
Qed.

(** X20.  One read, then at most one write, and only the write that was asked
    for.  Whatever the parameters and the cluster, the commands of an
    invocation are the dump alone, or the dump followed by
    [config set who option value] under [action=set], or the dump
    followed by [config rm who option] under [action=remove]; a write is
    never run in check mode. *)
Theorem config_commands (module : Config.AnsibleModule)
    (t : list Config.call) :
  let who := Config.param_who module in
  let option := Config.param_option module in
  let after := snd (main module t) in
  after = t ++ [dump_cmd module] \/
  (Config.param_action module = "set" /\ Config.check_mode module = false /\
   after = t ++ [dump_cmd module;
                 set_cmd module who option (Config.param_value module)]) \/
  (Config.param_action module = "remove" /\ Config.check_mode module = false /\
   after = t ++ [dump_cmd module; rm_cmd module who option]).
Proof.
  cbv zeta. remember (main module t) as m eqn:Hm.
  unfold Config.main, Config.get_config_dump, Config.run_command in Hm.
  unfold Config.bind at 1 in Hm. unfold Config.bind at 1 in Hm.
  destruct (run_command_oracle t (dump_cmd module)) as [[rc out] err].
  destruct (negb (rc =? 0)%Z); [subst m; left; reflexivity|].
  cbn [Config.ret] in Hm. unfold Config.bind at 1 in Hm.
  destruct (json_loads (strip out)) as [x|dump]; [subst m; left; reflexivity|].
  cbn [Config.lift Config.ret] in Hm. unfold Config.bind at 1 in Hm.
  destruct (Config.get_current_value _ _ dump) as [x|cur];
    [subst m; left; reflexivity|].
  cbn [Config.lift Config.ret] in Hm.
  destruct (String.eqb_spec (Config.param_action module) "set") as [Hset|_].
  - destruct (String.eqb _ _) in Hm; [subst m; left; reflexivity|].
    destruct (Config.check_mode module); [subst m; left; reflexivity|].
    right. left. split; [exact Hset|]. split; [reflexivity|].
    unfold Config.set_option, Config.bind, Config.run_command in Hm.
    destruct (run_command_oracle _ _) as [[rc2 out2] err2] in Hm.
    cbn [Config.ret] in Hm.
    destruct (negb (rc2 =? 0)%Z) in Hm; subst m; cbn; rewrite <- app_assoc;
      reflexivity.
  - destruct (String.eqb_spec (Config.param_action module) "remove") as [Hrm|_].
    + destruct cur; [subst m; left; reflexivity | ..];
        (destruct (Config.check_mode module); [subst m; left; reflexivity|]);
        right; right; (split; [exact Hrm|]); (split; [reflexivity|]);
        unfold Config.remove_option, Config.bind, Config.run_command in Hm;
        destruct (run_command_oracle _ _) as [[rc2 out2] err2] in Hm;
        cbn [Config.ret] in Hm;
        destruct (negb (rc2 =? 0)%Z) in Hm; subst m; cbn;
        rewrite <- app_assoc; reflexivity.
    + destruct cur; subst m; left; reflexivity.
Qed.

(** X21.  The report is truthful about the write.  An outcome reported through
    [exit_module] has exit code 0.  [changed=False] means that the dump
    was the only command.  [changed=True] means, in check mode, the
    same; outside check mode, that the reported command ran after the
    dump and exited with 0, and that its stripped output and its stderr
    are the ones reported. *)
Theorem config_report (module : Config.AnsibleModule) (t : list Config.call)
    (r : Config.exit_record)
    (Hexit : fst (main module t) = Config.Halt (Config.ExitJson r)) :
  Config.r_rc r = 0%Z /\
  if Config.r_changed r then
    (Config.check_mode module = true /\
     snd (main module t) = t ++ [dump_cmd module]) \/
    (Config.check_mode module = false /\
     snd (main module t) = t ++ [dump_cmd module; Config.r_cmd r] /\
     exists out2,
       run_command_oracle (t ++ [dump_cmd module]) (Config.r_cmd r)
         = (0%Z, out2, Config.r_stderr r) /\
       Config.r_stdout r = VStr (strip out2))
  else
    Config.r_cmd r = dump_cmd module /\
    snd (main module t) = t ++ [dump_cmd module].
Proof.
  remember (main module t) as m eqn:Hm.
  unfold Config.main, Config.get_config_dump, Config.run_command in Hm.
  unfold Config.bind at 1 in Hm. unfold Config.bind at 1 in Hm.
  destruct (run_command_oracle t (dump_cmd module)) as [[rc out] err].
  destruct (Z.eqb_spec rc 0) as [->|Hrc]; cbn [negb] in Hm;
    [|subst m; discriminate].
  cbn [Config.ret] in Hm. unfold Config.bind at 1 in Hm.
  destruct (json_loads (strip out)) as [x|dump]; [subst m; discriminate|].
  cbn [Config.lift Config.ret] in Hm. unfold Config.bind at 1 in Hm.
  destruct (Config.get_current_value _ _ dump) as [x|cur];
    [subst m; discriminate|].
  cbn [Config.lift Config.ret] in Hm.
  destruct (String.eqb (Config.param_action module) "set").
  - destruct (String.eqb _ _) in Hm.
    { subst m. cbn in Hexit. injection Hexit as Hrec; subst r.
      split; [reflexivity|]. split; reflexivity. }
    destruct (Config.check_mode module) eqn:Hcheck.
    { subst m. cbn in Hexit. injection Hexit as Hrec; subst r.
      split; [reflexivity|]. left. split; reflexivity. }
    unfold Config.set_option, Config.bind, Config.run_command in Hm.
    destruct (run_command_oracle _ _) as [[rc2 out2] err2] eqn:Hrun in Hm.
    cbn [Config.ret] in Hm.
    destruct (Z.eqb_spec rc2 0) as [->|Hrc2]; cbn [negb] in Hm;
      [|subst m; discriminate].
    subst m. cbn in Hexit. injection Hexit as Hrec; subst r. cbn.
    split; [reflexivity|]. right. split; [reflexivity|].
    split; [rewrite <- app_assoc; reflexivity|].
    exists out2. split; [exact Hrun | reflexivity].
  - destruct (String.eqb (Config.param_action module) "remove").
    + destruct cur;
        [subst m; cbn in Hexit; injection Hexit as Hrec; subst r;
         split; [reflexivity|]; split; reflexivity | ..];
        (destruct (Config.check_mode module) eqn:Hcheck;
         [subst m; cbn in Hexit; injection Hexit as Hrec; subst r;
          split; [reflexivity|]; left; split; reflexivity|]);
        unfold Config.remove_option, Config.bind, Config.run_command in Hm;
        destruct (run_command_oracle _ _) as [[rc2 out2] err2] eqn:Hrun in Hm;
        cbn [Config.ret] in Hm;
        (destruct (Z.eqb_spec rc2 0) as [->|Hrc2]; cbn [negb] in Hm;
         [|subst m; discriminate]);
        subst m; cbn in Hexit; injection Hexit as Hrec; subst r; cbn;
        (split; [reflexivity|]); right; (split; [reflexivity|]);
        (split; [rewrite <- app_assoc; reflexivity|]);
        exists out2; (split; [exact Hrun | reflexivity]).
    + destruct cur; subst m; cbn in Hexit; injection Hexit as Hrec; subst r;
        (split; [reflexivity|]); split; reflexivity.
Qed.

End ConfigMore.

(** ** The further properties on concrete clusters *)

Lemma change_required_unchanged_spec_witness :
  fst (change_required 0 1 Demo.compare_world) = Ret false.
Proof.
  exact (change_required_unchanged_spec Demo.compare_world 0 1 Demo.nfs_state
           (VStr "nfs") eq_refl eq_refl eq_refl eq_refl).
Defined.

Lemma change_required_location_hint_witness :
  fst (change_required 3 4 Demo.compare_world) = Ret false.
Proof.
  exact (change_required_location_hint Demo.compare_world 3 4
           [("service_type", VStr "host")] [("hostname", VStr "ceph-1")]
           (VDict [("rack", VStr "r1")]) (VStr "host")
           eq_refl eq_refl eq_refl eq_refl eq_refl).
Defined.

Lemma change_required_field_order_witness :
  fst (change_required 0 1 Demo.compare_world)
    = fst (change_required 0 2 Demo.compare_world).
Proof.
  apply (change_required_field_order Demo.compare_world 0 1 2 Demo.nfs_state
           Demo.nfs_state _ (VStr "nfs") eq_refl ltac:(discriminate)
           eq_refl eq_refl);
    [apply perm_swap | reflexivity | reflexivity].
Defined.

Lemma change_required_nested_key_order_witness :
  fst (change_required 0 5 Demo.compare_world) = Ret false.
Proof.
  apply (change_required_nested_key_order Demo.compare_world 0 5
           [("service_type", VStr "nfs"); ("service_id", VStr "iac")] []
           Demo.placement Demo.placement_reordered "placement" (VStr "nfs")
           eq_refl eq_refl);
    [apply perm_swap | reflexivity | discriminate | reflexivity].
Defined.

Lemma change_required_missing_service_type_witness :
  change_required 0 6 Demo.compare_world
    = (Halt (Uncaught (KeyError "service_type")), Demo.compare_world).
Proof.
  exact (change_required_missing_service_type Demo.compare_world 0 6
           (VDict Demo.nfs_state) [("service_id", VStr "iac")]
           eq_refl eq_refl eq_refl eq_refl).
Defined.

Lemma retrieve_current_spec_listing_witness :
  trace (snd (retrieve_current_spec Demo.orch_oracle Demo.yaml_safe_load
                Demo.build_base_cmd_orch Demo.container_str
                (Demo.orch_module false) 0 Demo.compare_world)) =
    [{| argv := [VStr "ceph"; VStr "orch"; VStr "ls"; VStr "nfs";
                 VStr "nfs.iac"; VStr "--format=yaml"];
        stdin := None |}] /\
  trace (snd (retrieve_current_spec Demo.orch_oracle Demo.yaml_safe_load
                Demo.build_base_cmd_orch Demo.container_str
                (Demo.orch_module false) 3 Demo.compare_world)) =
    [{| argv := [VStr "ceph"; VStr "orch"; VStr "host"; VStr "ls";
                 VStr "--host-pattern"; VStr "ceph-1"; VStr "--format=yaml"];
        stdin := None |}].
Proof.
  split.
  - destruct (retrieve_current_spec_listing Demo.orch_oracle
                Demo.yaml_safe_load Demo.build_base_cmd_orch Demo.container_str
                Demo.compare_world (Demo.orch_module false) 0 Demo.nfs_state
                "nfs" eq_refl eq_refl) as (Hid & _ & _).
    refine (Hid _ (VStr "iac") eq_refl).
    right. right. right. left. reflexivity.
  - destruct (retrieve_current_spec_listing Demo.orch_oracle
                Demo.yaml_safe_load Demo.build_base_cmd_orch Demo.container_str
                Demo.compare_world (Demo.orch_module false) 3
                [("service_type", VStr "host"); ("hostname", VStr "ceph-1")]
                "host" eq_refl eq_refl) as (_ & Hhost & _).
    exact (Hhost eq_refl (VStr "ceph-1") eq_refl).
Defined.

Lemma retrieve_current_spec_missing_key_witness :
  retrieve_current_spec Demo.orch_oracle Demo.yaml_safe_load
    Demo.build_base_cmd_orch Demo.container_str (Demo.orch_module false) 6
    Demo.compare_world
    = (Halt (Uncaught (KeyError "service_type")), Demo.compare_world).
Proof.
  destruct (retrieve_current_spec_missing_key Demo.orch_oracle
              Demo.yaml_safe_load Demo.build_base_cmd_orch Demo.container_str
              Demo.compare_world (Demo.orch_module false) 6
              [("service_id", VStr "iac")] eq_refl) as (Hst & _ & _).
  exact (Hst eq_refl).
Defined.

Lemma run_module_no_change_witness :
  fst (run_module Demo.orch_oracle_present Demo.yaml_safe_load
         Demo.build_base_cmd_orch Demo.missing_required_lib Demo.container_str
         true None 0 (Demo.orch_module false) Demo.empty_world) =
    Halt (ExitJson {| r_changed := false; r_cmd := []; r_rc := 0;
                      r_stdout := EmptyString; r_stderr := EmptyString;
                      r_start := 0 |}).
Proof.
  edestruct (run_module_no_change Demo.orch_oracle_present Demo.yaml_safe_load
               Demo.build_base_cmd_orch Demo.missing_required_lib
               Demo.container_str true None 0 Demo.empty_world)
    as (Hrun & _);
    [ reflexivity | | | | | rewrite Hrun; reflexivity ];
    reflexivity.
Defined.

Lemma run_module_applied_witness :
  fst (run_module Demo.orch_oracle_accepting Demo.yaml_safe_load
         Demo.build_base_cmd_orch Demo.missing_required_lib Demo.container_str
         true None 0 (Demo.orch_module false) Demo.empty_world) =
    Halt (ExitJson {| r_changed := true;
                      r_cmd := [VStr "ceph"; VStr "orch"; VStr "apply";
                                VStr "-i"; VStr "-"];
                      r_rc := 0;
                      r_stdout := "Scheduled nfs.iac update...";
                      r_stderr := EmptyString;
                      r_start := 0 |}).
Proof.
  erewrite (run_module_applied Demo.orch_oracle_accepting Demo.yaml_safe_load
              Demo.build_base_cmd_orch Demo.missing_required_lib
              Demo.container_str true None 0 Demo.empty_world);
    reflexivity.
Defined.

Lemma run_module_missing_library_witness :
  run_module Demo.orch_oracle Demo.yaml_safe_load Demo.build_base_cmd_orch
    Demo.missing_required_lib Demo.container_str false
    (Some "ModuleNotFoundError: No module named 'yaml'") 0
    (Demo.orch_module true) Demo.empty_world =
    (Halt (FailJson
             "Failed to import the required Python library (another_library)"
             (Some "ModuleNotFoundError: No module named 'yaml'")),
     Demo.empty_world).
Proof.
  exact (run_module_missing_library Demo.orch_oracle Demo.yaml_safe_load
           Demo.build_base_cmd_orch Demo.missing_required_lib
           Demo.container_str false _ 0 Demo.empty_world
           (Demo.orch_module true) eq_refl).
Defined.

Lemma run_module_parse_error_witness :
  run_module Demo.orch_oracle Demo.yaml_rejecting Demo.build_base_cmd_orch
    Demo.missing_required_lib Demo.container_str true None 0
    (Demo.orch_module false) Demo.empty_world =
    (Halt (Uncaught YAMLError), Demo.empty_world).
Proof.
  exact (run_module_parse_error Demo.orch_oracle Demo.yaml_rejecting
           Demo.build_base_cmd_orch Demo.missing_required_lib
           Demo.container_str true None 0 Demo.empty_world
           (Demo.orch_module false) YAMLError eq_refl eq_refl eq_refl).
Defined.

Lemma run_module_report_witness :
  exists before,
    trace (snd (run_module Demo.orch_oracle_accepting Demo.yaml_safe_load
                  Demo.build_base_cmd_orch Demo.missing_required_lib
                  Demo.container_str true None 0 (Demo.orch_module false)
                  Demo.empty_world))
      = before ++ [apply_call Demo.build_base_cmd_orch (Demo.orch_module false)
                     Demo.nfs_spec_text].
Proof.
  destruct (run_module_report Demo.orch_oracle_accepting Demo.yaml_safe_load
              Demo.build_base_cmd_orch Demo.missing_required_lib
              Demo.container_str true None 0 Demo.empty_world
              (Demo.orch_module false)
              {| r_changed := true;
                 r_cmd := [VStr "ceph"; VStr "orch"; VStr "apply";
                           VStr "-i"; VStr "-"];
                 r_rc := 0;
                 r_stdout := "Scheduled nfs.iac update...";
                 r_stderr := EmptyString;
                 r_start := 0 |} eq_refl) as (_ & [[Hno _] | (_ & _ & before & Ht & _)]).
  - discriminate Hno.
  - exists before. exact Ht.
Defined.

Lemma demo_no_record_before_global :
  Config.no_record_matches "global" "osd_pool_default_size"
    [[("section", VStr "mon"); ("name", VStr "mon_allow_pool_delete");
      ("value", VStr "true")]].
Proof.
  repeat constructor. exists (VStr "mon"). split; [reflexivity|].
  left. reflexivity.
Defined.

Lemma get_current_value_first_match_witness :
  Config.get_current_value "global" "osd_pool_default_size"
    ([[("section", VStr "mon"); ("name", VStr "mon_allow_pool_delete");
       ("value", VStr "true")]]
     ++ [("section", VStr "global"); ("name", VStr "osd_pool_default_size");
         ("value", VStr "3")]
     :: [[("section", VStr "global"); ("name", VStr "osd_pool_default_size");
          ("value", VStr "2")]])
    = inr (VStr "3").
Proof.
  exact (get_current_value_first_match "global" "osd_pool_default_size" _ _
           [("section", VStr "global"); ("name", VStr "osd_pool_default_size");
            ("value", VStr "3")]
           (VStr "global") (VStr "osd_pool_default_size")
           demo_no_record_before_global eq_refl eq_refl eq_refl eq_refl).
Defined.

Lemma get_current_value_malformed_record_witness :
  Config.get_current_value "global" "osd_pool_default_size"
    ([[("section", VStr "mon"); ("name", VStr "mon_allow_pool_delete");
       ("value", VStr "true")]]
     ++ [("name", VStr "osd_pool_default_size"); ("value", VStr "3")] :: [])
    = inl (KeyError "section").
Proof.
  destruct (get_current_value_malformed_record "global"
              "osd_pool_default_size" _ []
              [("name", VStr "osd_pool_default_size"); ("value", VStr "3")]
              demo_no_record_before_global) as (Hsec & _ & _).
  exact (Hsec eq_refl).
Defined.

Lemma config_get_reads_only_witness :
  Config.main Demo.config_oracle Demo.json_loads Demo.build_base_cmd_shell
    Demo.container_str 0
    (Demo.config_module "get" "global" "osd_pool_default_size" None false) [] =
    (Config.Halt (Config.ExitJson
       {| Config.r_changed := false;
          Config.r_cmd := [VStr "ceph"; VStr "config"; VStr "dump";
                           VStr "--format"; VStr "json"];
          Config.r_rc := 0;
          Config.r_stdout := VStr "3";
          Config.r_stderr := EmptyString;
          Config.r_start := 0 |}),
     [[VStr "ceph"; VStr "config"; VStr "dump"; VStr "--format"; VStr "json"]]).
Proof.
  exact (config_get_reads_only Demo.config_oracle Demo.json_loads
           Demo.build_base_cmd_shell Demo.container_str 0
           (Demo.config_module "get" "global" "osd_pool_default_size" None false)
           [] "[...]" EmptyString Demo.config_dump (VStr "3")
           ltac:(discriminate) ltac:(discriminate) eq_refl eq_refl eq_refl).
Defined.

Lemma config_remove_present_witness :
  Config.main Demo.config_oracle_ok Demo.json_loads Demo.build_base_cmd_shell
    Demo.container_str 0
    (Demo.config_module "remove" "global" "osd_pool_default_size" None false)
    [] =
    (Config.Halt (Config.ExitJson
       {| Config.r_changed := true;
          Config.r_cmd := [VStr "ceph"; VStr "config"; VStr "rm";
                           VStr "global"; VStr "osd_pool_default_size"];
          Config.r_rc := 0;
          Config.r_stdout := VStr EmptyString;
          Config.r_stderr := EmptyString;
          Config.r_start := 0 |}),
     [[VStr "ceph"; VStr "config"; VStr "dump"; VStr "--format"; VStr "json"];
      [VStr "ceph"; VStr "config"; VStr "rm"; VStr "global";
       VStr "osd_pool_default_size"]]).
Proof.
  exact (config_remove_present Demo.config_oracle_ok Demo.json_loads
           Demo.build_base_cmd_shell Demo.container_str 0
           (Demo.config_module "remove" "global" "osd_pool_default_size" None
              false)
           [] "[...]" EmptyString EmptyString EmptyString Demo.config_dump
           (VStr "3") eq_refl eq_refl eq_refl eq_refl eq_refl
           ltac:(discriminate) eq_refl).
Defined.

Lemma config_unreadable_dump_witness :
  Config.main Demo.config_oracle Demo.json_rejecting Demo.build_base_cmd_shell
    Demo.container_str 0
    (Demo.config_module "set" "global" "osd_pool_default_size" (Some "4") false)
    [] =
    (Config.Halt (Config.Uncaught JSONDecodeError),
     [[VStr "ceph"; VStr "config"; VStr "dump"; VStr "--format"; VStr "json"]]).
Proof.
  destruct (config_unreadable_dump Demo.config_oracle Demo.json_rejecting
              Demo.build_base_cmd_shell Demo.container_str 0
              (Demo.config_module "set" "global" "osd_pool_default_size"
                 (Some "4") false)
              [] "[...]" EmptyString eq_refl) as (Hjson & _).
  exact (Hjson JSONDecodeError eq_refl).
Defined.

Lemma config_report_witness :
  snd (Config.main Demo.config_oracle_ok Demo.json_loads
         Demo.build_base_cmd_shell Demo.container_str 0
         (Demo.config_module "set" "global" "osd_pool_default_size" (Some "4")
            false) []) =
    [[VStr "ceph"; VStr "config"; VStr "dump"; VStr "--format"; VStr "json"];
     [VStr "ceph"; VStr "config"; VStr "set"; VStr "global";
      VStr "osd_pool_default_size"; VStr "4"]].
Proof.
  destruct (config_report Demo.config_oracle_ok Demo.json_loads
              Demo.build_base_cmd_shell Demo.container_str 0
              (Demo.config_module "set" "global" "osd_pool_default_size"
                 (Some "4") false)
              []
              {| Config.r_changed := true;
                 Config.r_cmd := [VStr "ceph"; VStr "config"; VStr "set";
                                  VStr "global"; VStr "osd_pool_default_size";
                                  VStr "4"];
                 Config.r_rc := 0;
                 Config.r_stdout := VStr EmptyString;
                 Config.r_stderr := EmptyString;
                 Config.r_start := 0 |} eq_refl)
    as (_ & [[Hcheck _] | (_ & Ht & _)]).
  - discriminate Hcheck.
  - exact Ht.
Defined.
